(** * DNN_Lab, notebook [0_basics.ipynb]: the [CustomDataset] wrapper

    The notebook defines one class, [CustomDataset], a [torch] dataset
    over two [pandas] frames read from CSV files, and then splits it with
    [torch.utils.data.random_split].

    - [Py]: exceptions, results, and method bodies as functions from the
      object to a result and the object left behind.
    - [Np], [Pd]: the [numpy] and [pandas] calls the class makes, on
      IEEE 754 values ([SpecFloat]) and on frames of rows.
    - [Notebook]: the class, method by method, and the assertion of the
      cell before it.
    - [SaveCell]: the cell that writes the two files.
    - [Torch], [SplitCell]: [random_split] and the cell that calls it.
    - Then the properties: construction and size, indexed access, the
      rounding of [0.8 * n], and the split. *)

From Stdlib Require Import ZArith List String Ascii Bool Lia Permutation FinFun Sorted.
From Stdlib Require Import Floats.SpecFloat.
Import ListNotations.
Open Scope Z_scope.

(** ** Python results and methods *)

Module Py.

(** The exceptions the modelled calls can raise. *)
Inductive exn : Type :=
| IndexError
| ValueError
| AssertionError
| OverflowError
| FileNotFoundError
| EmptyDataError
| ParserError.

Inductive result (A : Type) : Type :=
| Ok (a : A)
| Raise (e : exn).
Arguments Ok {A} a.
Arguments Raise {A} e.

Definition rbind {A B} (r : result A) (k : A -> result B) : result B :=
  match r with
  | Ok a => k a
  | Raise e => Raise e
  end.

(** A method body runs on the object [self] and leaves an object behind,
    whether it returns or raises. *)
Definition method (S A : Type) : Type := S -> result A * S.

Definition ret {S A} (a : A) : method S A := fun self => (Ok a, self).

Definition bind {S A B} (m : method S A) (k : A -> method S B) : method S B :=
  fun self =>
    match m self with
    | (Ok a, self') => k a self'
    | (Raise e, self') => (Raise e, self')
    end.

(** [self.f]: reading an attribute. *)
Definition attr {S A} (f : S -> A) : method S A := fun self => (Ok (f self), self).

(** A call into a library function that works on values. *)
Definition call {S A} (r : result A) : method S A := fun self => (r, self).

Definition value {S A} (m : method S A) (self : S) : result A := fst (m self).
Definition after {S A} (m : method S A) (self : S) : S := snd (m self).

End Py.
Import Py.

Declare Scope py_scope.
Delimit Scope py_scope with py.
Notation "x <- m ;; k" := (Py.bind m (fun x => k))
  (at level 61, m at next level, right associativity) : py_scope.
Notation "x <~ r ;; k" := (Py.rbind r (fun x => k))
  (at level 61, r at next level, right associativity) : py_scope.

(** ** numpy: binary64 and binary32 values *)

Module Np.

(** A [float64] and a [float32] are IEEE 754 values; the format is in
    the operations ([prec] 53, [emax] 1024 and [prec] 24, [emax] 128). *)
Definition float64 : Type := spec_float.
Definition float32 : Type := spec_float.

(** Python's [float(n)] for an [int]: round to nearest, ties to even. *)
Definition float_of_int (n : Z) : float64 := binary_normalize 53 1024 n 0 false.

(** The cast of an [int64] to [float32]. *)
Definition float32_of_int (n : Z) : float32 := binary_normalize 24 128 n 0 false.

(** The cast of a [float64] to [float32]. *)
Definition float32_of_float (x : float64) : float32 :=
  match x with
  | S754_finite s m e => binary_round 24 128 s m e
  | _ => x
  end.

(** Python's [x * y] on two floats. *)
Definition fmul (x y : float64) : float64 := SFmul 53 1024 x y.

(** The float a decimal literal [n / d] denotes ([d] a power of ten). *)
Definition decimal (n d : Z) : float64 :=
  SFdiv 53 1024 (float_of_int n) (float_of_int d).

(** Python's [int(x)] on a float: truncation towards zero. *)
Definition int_of_float (x : float64) : result Z :=
  match x with
  | S754_zero _ => Ok 0
  | S754_finite s m e =>
      let a := if 0 <=? e then Z.shiftl (Zpos m) e else Z.shiftr (Zpos m) (- e) in
      Ok (if s then - a else a)
  | S754_infinity _ => Raise OverflowError
  | S754_nan => Raise ValueError
  end.

End Np.

(** ** pandas: frames, positional rows, conversions *)

Module Pd.
Import Np.

(** What a cell of a frame read by [read_csv] holds: the column is
    [int64], [float64] (with NaN for a missing value), [bool] or
    [object] (a [str]). *)
Inductive scalar : Type :=
| PyInt (z : Z)
| PyFloat (f : float64)
| PyBool (b : bool)
| PyStr (s : string).

(** A row taken out of a frame; only its values matter here. *)
Definition Series : Type := list scalar.

Definition row_fits (ncols : nat) (r : Series) : bool :=
  Nat.eqb (List.length r) ncols.

(** A frame: column names and rows, every row as long as the header. *)
Record DataFrame : Type := {
  columns : list string;
  rows : list Series;
  rectangular : forallb (row_fits (List.length columns)) rows = true
}.

(** [len(df)] and [df.shape[0]]. *)
Definition len (df : DataFrame) : Z := Z.of_nat (List.length (rows df)).

(** [df.iloc[idx]] for an integer [idx]: out of bounds outside
    [-len, len); a negative position counts from the end. *)
Definition iloc (df : DataFrame) (idx : Z) : result Series :=
  let n := len df in
  if (n <=? idx) || (idx <? - n) then Raise IndexError
  else Ok (nth (Z.to_nat (if idx <? 0 then idx + n else idx)) (rows df) []).

(** [Series.item()]: the only element, or [ValueError]. *)
Definition item (s : Series) : result scalar :=
  match s with
  | [v] => Ok v
  | _ => Raise ValueError
  end.

(** The dtype pandas holds a column in, and a row taken across the
    columns. *)
Inductive dtype : Type :=
| Int64
| UInt64
| Float64
| Boolean
| Object.

Definition in_int64 (z : Z) : bool := (- 2 ^ 63 <=? z) && (z <? 2 ^ 63).

Definition in_uint64 (z : Z) : bool := (0 <=? z) && (z <? 2 ^ 64).

Definition is_bool (v : scalar) : bool :=
  match v with PyBool _ => true | _ => false end.

Definition is_float (v : scalar) : bool :=
  match v with PyFloat _ => true | _ => false end.

Definition int_in (range : Z -> bool) (v : scalar) : bool :=
  match v with PyInt z => range z | _ => false end.

(** A float, or an integer of 64 bits. *)
Definition number_64 (v : scalar) : bool :=
  match v with
  | PyInt z => in_int64 z || in_uint64 z
  | PyFloat _ => true
  | _ => false
  end.

(** The dtype of the column that holds [cells]: [bool] for booleans;
    [int64] for integers that all fit, else [uint64] if they all fit
    that; [float64] for floats, with or without such integers; [object]
    for anything else (text, longer integers, a mix). *)
Definition column_dtype (cells : list scalar) : dtype :=
  match cells with
  | [] => Object
  | _ =>
      if forallb is_bool cells then Boolean
      else if forallb (int_in in_int64) cells then Int64
      else if forallb (int_in in_uint64) cells then UInt64
      else if existsb is_float cells && forallb number_64 cells then Float64
      else Object
  end.

(** The dtype that holds values of both dtypes: the same dtype twice is
    itself, two different numeric dtypes are [float64], anything else is
    [object]. *)
Definition common_dtype (a b : dtype) : dtype :=
  match a, b with
  | Int64, Int64 => Int64
  | UInt64, UInt64 => UInt64
  | Boolean, Boolean => Boolean
  | Float64, (Int64 | UInt64 | Float64) => Float64
  | Int64, (UInt64 | Float64) => Float64
  | UInt64, (Int64 | Float64) => Float64
  | _, _ => Object
  end.

(** The cells of column [j], top to bottom. *)
Definition column (df : DataFrame) (j : nat) : list scalar :=
  map (fun r => nth j r (PyFloat S754_nan)) (rows df).

(** [df.dtypes] *)
Definition dtypes (df : DataFrame) : list dtype :=
  map (fun j => column_dtype (column df j)) (seq 0 (List.length (columns df))).

(** The dtype of [df.iloc[idx]], whatever the row: the common dtype of
    the columns. *)
Definition row_dtype (df : DataFrame) : dtype :=
  match dtypes df with
  | [] => Object
  | d :: ds => fold_left common_dtype ds d
  end.

Section ToNumpy.

(** Python's [float(s)] on a [str]: the parsed value, or [None] for
    the [ValueError] of text that is no number. *)
Variable float_of_str : string -> option float64.

(** [float(v)] on the Python object [v], as the elements of an [object]
    row are converted: an [int] too long for a float raises
    [OverflowError], a text that is no number [ValueError]. *)
Definition to_float (v : scalar) : result float64 :=
  match v with
  | PyInt z =>
      match float_of_int z with
      | S754_infinity _ => Raise OverflowError
      | f => Ok f
      end
  | PyFloat f => Ok f
  | PyBool b => Ok (float_of_int (if b then 1 else 0))
  | PyStr s =>
      match float_of_str s with
      | Some f => Ok f
      | None => Raise ValueError
      end
  end.

(** One element of a row of dtype [dt] cast to [float32]: an integer of
    an [int64] or [uint64] row is cast directly, an integer of a
    [float64] row is a binary64 already, and the elements of an [object]
    row go through [float(v)]. *)
Definition astype_float32 (dt : dtype) (v : scalar) : result float32 :=
  match dt, v with
  | (Int64 | UInt64), PyInt z => Ok (float32_of_int z)
  | Float64, PyInt z => Ok (float32_of_float (float_of_int z))
  | _, _ => (f <~ to_float v ;; Ok (float32_of_float f))%py
  end.

(** [Series.to_numpy(dtype=np.float32)] on a row of dtype [dt]: the
    elements in order, the first that does not convert raising. *)
Fixpoint to_numpy_float32 (dt : dtype) (s : Series) : result (list float32) :=
  match s with
  | [] => Ok []
  | v :: s' =>
      (x <~ astype_float32 dt v ;;
       xs <~ to_numpy_float32 dt s' ;;
       Ok (x :: xs))%py
  end.

End ToNumpy.

End Pd.

(** ** The notebook *)

Module Notebook.
Import Np Pd.
Local Open Scope py_scope.

(** The files [pd.read_csv] can see when the constructor runs: what
    reading the file at a path gives, a frame or the exception of a
    missing or malformed file. *)
Definition files : Type := string -> result DataFrame.

Definition read_csv (fs : files) (path : string) : result DataFrame := fs path.

(** The cell before the class:
    [assert(x.shape[0] == y.shape[0])], on the frames in memory. *)
Definition assert_same_rows (x y : DataFrame) : result unit :=
  if len x =? len y then Ok tt else Raise AssertionError.

Definition ndarray : Type := list float32.

(** The attributes [__init__] sets. *)
Record CustomDataset : Type := {
  targets_file : DataFrame;
  data_dir : DataFrame;
  transform : option (ndarray -> ndarray);
  target_transform : option (scalar -> scalar)
}.

(** [CustomDataset.__init__]: the targets are read first, then the
    data; nothing else is looked at. *)
Definition __init__ (fs : files) (targets_file data_file : string)
    (transform : option (ndarray -> ndarray))
    (target_transform : option (scalar -> scalar)) : result CustomDataset :=
  t <~ read_csv fs targets_file ;;
  d <~ read_csv fs data_file ;;
  Ok (Build_CustomDataset t d transform target_transform).

(** [CustomDataset.__len__] *)
Definition __len__ : method CustomDataset Z :=
  t <- attr targets_file ;;
  ret (len t).

Section GetItem.

Variable float_of_str : string -> option float64.

(** [CustomDataset.__getitem__]: the tuple is built left to right, the
    feature row first, in the dtype the frame gives its rows, the label
    after it.  Neither transform is applied. *)
Definition __getitem__ (idx : Z) : method CustomDataset (ndarray * scalar) :=
  d <- attr data_dir ;;
  row <- call (iloc d idx) ;;
  x <- call (to_numpy_float32 float_of_str (row_dtype d) row) ;;
  t <- attr targets_file ;;
  lab <- call (iloc t idx) ;;
  y <- call (item lab) ;;
  ret (x, y).

(** What a caller sees of [dataset[idx]]. *)
Definition get (ds : CustomDataset) (idx : Z) : result (ndarray * scalar) :=
  value (__getitem__ idx) ds.

(** The calls a user of the object can make, and the object a run of
    such calls leaves behind, raised exceptions included. *)
Inductive operation : Type :=
| Len
| GetItem (idx : Z).

Definition perform (o : operation) (self : CustomDataset) : CustomDataset :=
  match o with
  | Len => after __len__ self
  | GetItem idx => after (__getitem__ idx) self
  end.

Definition perform_all (os : list operation) (self : CustomDataset) : CustomDataset :=
  fold_left (fun s o => perform o s) os self.

End GetItem.

(** What a caller sees of [len(dataset)]. *)
Definition size (ds : CustomDataset) : result Z := value __len__ ds.

End Notebook.

(** ** The cell that saves the frames *)

Module SaveCell.
Import Pd Notebook.
Local Open Scope string_scope.

(** [b.startswith('/')] and [a.endswith('/')] *)
Definition startswith_sep (b : string) : bool :=
  match b with
  | String c _ => Ascii.eqb c "/"
  | EmptyString => false
  end.

Fixpoint endswith_sep (a : string) : bool :=
  match a with
  | EmptyString => false
  | String c EmptyString => Ascii.eqb c "/"
  | String _ a' => endswith_sep a'
  end.

(** [os.path.join(a, b)], as [posixpath] has it: an absolute [b] stands
    alone; else [b] follows [a], after a separator unless [a] is empty
    or ends with one. *)
Definition join (a b : string) : string :=
  if startswith_sep b then b
  else if String.eqb a "" || endswith_sep a then a ++ b
  else a ++ "/" ++ b.

(** [df.to_csv(path, index=False)], on the files as [read_csv] sees
    them: the file at [path] is replaced, and reading it gives the
    header and the rows of [df] back.  This takes [pandas] to print every
    cell so that it reads back, as it does for a frame that was read
    from a file; the text in between is not modelled. *)
Definition to_csv (df : DataFrame) (path : string) (fs : files) : files :=
  fun p => if String.eqb p path then Ok df else fs p.

(** [folder = os.path.join('data', name)], then
    [x.to_csv(os.path.join(folder, 'data.csv'), index=False)] and
    [y.to_csv(os.path.join(folder, 'targets.csv'), index=False)];
    the folder is made first and is no file. *)
Definition folder_of (name : string) : string := join "data" name.

Definition save (name : string) (x y : DataFrame) (fs : files) : files :=
  let folder := folder_of name in
  to_csv y (join folder "targets.csv") (to_csv x (join folder "data.csv") fs).

(** [CustomDataset(targets_file=os.path.join(folder, 'targets.csv'),
    data_file=os.path.join(folder, 'data.csv'))] *)
Definition load (name : string) (fs : files) : result CustomDataset :=
  let folder := folder_of name in
  __init__ fs (join folder "targets.csv") (join folder "data.csv") None None.

End SaveCell.

(** ** torch.utils.data: [Subset] and [random_split] *)

Module Torch.
Import Notebook.
Local Open Scope py_scope.

(** [Subset(dataset, indices)]: a view of [dataset] at [indices]. *)
Record Subset : Type := {
  dataset : CustomDataset;
  indices : list Z
}.

(** A bound of a slice, as Python resolves it on a list of [n] items. *)
Definition slice_bound (n i : Z) : Z :=
  if i <? 0 then Z.max 0 (i + n) else Z.min i n.

(** [l[lo:hi]] *)
Definition slice {A} (l : list A) (lo hi : Z) : list A :=
  let n := Z.of_nat (List.length l) in
  let a := slice_bound n lo in
  let b := slice_bound n hi in
  firstn (Z.to_nat (b - a)) (skipn (Z.to_nat a) l).

Definition sum (l : list Z) : Z := fold_right Z.add 0 l.

(** Lengths that sum to 1 are read as fractions of the dataset; integer
    lengths of that kind are one 1 among 0s, and each is scaled by [n]
    (nothing is left over to hand out). *)
Definition resolve_lengths (n : Z) (lengths : list Z) : result (list Z) :=
  if sum lengths =? 1 then
    if forallb (fun f => (0 <=? f) && (f <=? 1)) lengths
    then Ok (map (Z.mul n) lengths)
    else Raise ValueError
  else Ok lengths.

(** [[Subset(dataset, indices[offset - length : offset]) for offset,
    length in zip(accumulate(lengths), lengths)]]; [offset] is the sum of
    the lengths before. *)
Fixpoint subsets (ds : CustomDataset) (idxs : list Z) (offset : Z)
    (lengths : list Z) : list Subset :=
  match lengths with
  | [] => []
  | length :: rest =>
      let offset' := offset + length in
      Build_Subset ds (slice idxs (offset' - length) offset')
        :: subsets ds idxs offset' rest
  end.

Section RandomSplit.

(** [randperm(n, generator=...).tolist()]: the order the generator
    draws for [n] positions. *)
Variable randperm : Z -> list Z.

(** [random_split(dataset, lengths, generator)] on integer lengths:
    fractions resolved, the sum checked against [len(dataset)], and the
    drawn order cut into consecutive slices. *)
Definition random_split (ds : CustomDataset) (lengths : list Z)
    : result (list Subset) :=
  n <~ size ds ;;
  lengths' <~ resolve_lengths n lengths ;;
  if sum lengths' =? n
  then Ok (subsets ds (randperm (sum lengths')) 0 lengths')
  else Raise ValueError.

End RandomSplit.

(** The positions [0 .. n-1], which [randperm(n)] permutes. *)
Definition arange (n : Z) : list Z := map Z.of_nat (seq 0 (Z.to_nat n)).

End Torch.

(** ** The notebook's last cell: the train/test split *)

Module SplitCell.
Import Notebook Torch.
Local Open Scope py_scope.

(** [int(0.8 * n)]: the literal 0.8, the product in binary64, the
    truncation. *)
Definition train_size (n : Z) : result Z :=
  Np.int_of_float (Np.fmul (Np.decimal 8 10) (Np.float_of_int n)).

(** [train_size = int(0.8 * len(dataset))],
    [test_size = len(dataset) - train_size],
    [train_dataset, test_dataset = random_split(dataset, [train_size, test_size])]. *)
Definition train_test_split (randperm : Z -> list Z) (ds : CustomDataset)
    : result (Subset * Subset) :=
  n <~ size ds ;;
  train_size <~ train_size n ;;
  let test_size := n - train_size in
  parts <~ random_split randperm ds [train_size; test_size] ;;
  match parts with
  | [train_dataset; test_dataset] => Ok (train_dataset, test_dataset)
  | _ => Raise ValueError
  end.

End SplitCell.

(** ** Concrete frames and files *)

Module Examples.
Import Np Pd Notebook.

Definition iris_columns : list string :=
  ["sepal length"; "sepal width"; "petal length"; "petal width"]%string.

(** The first rows of the Iris features, as the notebook prints them. *)
Definition iris_row0 : Series :=
  [PyFloat (decimal 51 10); PyFloat (decimal 35 10);
   PyFloat (decimal 14 10); PyFloat (decimal 2 10)].

Definition iris_row1 : Series :=
  [PyFloat (decimal 49 10); PyFloat (decimal 30 10);
   PyFloat (decimal 14 10); PyFloat (decimal 2 10)].

Definition iris_row2 : Series :=
  [PyFloat (decimal 47 10); PyFloat (decimal 32 10);
   PyFloat (decimal 13 10); PyFloat (decimal 2 10)].

Definition one_row : DataFrame :=
  Build_DataFrame iris_columns [iris_row0] eq_refl.

Definition two_rows : DataFrame :=
  Build_DataFrame iris_columns [iris_row0; iris_row1] eq_refl.

Definition three_rows : DataFrame :=
  Build_DataFrame iris_columns [iris_row0; iris_row1; iris_row2] eq_refl.

Definition two_labels : DataFrame :=
  Build_DataFrame ["class"%string] [[PyInt 0]; [PyInt 1]] eq_refl.


(** Labels kept next to their names: two columns. *)
Definition two_label_columns : DataFrame :=
  Build_DataFrame ["class"; "name"]%string
    [[PyInt 0; PyStr "Iris-setosa"]; [PyInt 1; PyStr "Iris-versicolor"]] eq_refl.

(** 150 rows of four features, and 150 labels in one column. *)
Definition data_150 : DataFrame :=
  Build_DataFrame iris_columns (iris_row0 :: repeat iris_row1 149) eq_refl.

Definition targets_150 : DataFrame :=
  Build_DataFrame ["class"%string]
    (repeat [PyInt 0] 50 ++ repeat [PyInt 1] 50 ++ repeat [PyInt 2] 50) eq_refl.

(** A directory holding the given targets and data files, nothing else. *)
Definition folder (targets data : DataFrame) : files :=
  fun path =>
    if String.eqb path "targets.csv" then Ok targets
    else if String.eqb path "data.csv" then Ok data
    else Raise FileNotFoundError.

Definition paired (targets data : DataFrame) : CustomDataset :=
  Build_CustomDataset targets data None None.

(** No text parses as a number. *)
Definition no_text : string -> option float64 := fun _ => None.


(** The generator that draws the positions backwards. *)
Definition backwards (n : Z) : list Z := rev (Torch.arange n).

End Examples.

(** ** sklearn.preprocessing: [LabelEncoder] *)

Module Sklearn.

(** One more value into the sorted list of the distinct values seen. *)
Fixpoint add_class (s : string) (classes : list string) : list string :=
  match classes with
  | [] => [s]
  | c :: cs =>
      match String.compare s c with
      | Lt => s :: classes
      | Eq => classes
      | Gt => c :: add_class s cs
      end
  end.

(** [sorted(set(values))]: the distinct labels in the order of [str]. *)
Definition unique_sorted (y : list string) : list string :=
  fold_right add_class [] y.

(** [table[v]] for [table = {val: i for i, val in enumerate(uniques)}]:
    the place of [v] among the classes (past the end when it is not
    there, which a fitted value never is). *)
Fixpoint position (v : string) (uniques : list string) : Z :=
  match uniques with
  | [] => 0
  | c :: cs => if String.eqb v c then 0 else 1 + position v cs
  end.

(** The order of [str]: by code points, a prefix first. *)
Definition str_lt (a b : string) : Prop := String.compare a b = Lt.

(** The fitted encoder. *)
Record LabelEncoder : Type := { classes_ : list string }.

(** [LabelEncoder().fit_transform(y)] on a column of [str] labels: the
    encoder, fitted, and one code per label. *)
Definition fit_transform (y : list string) : LabelEncoder * list Z :=
  let uniques := unique_sorted y in
  (Build_LabelEncoder uniques, map (fun v => position v uniques) y).

End Sklearn.

(** ** torch.utils.data: reading through a [Subset], batches *)

Module Loader.
Import Np Pd Notebook Torch.
Local Open Scope py_scope.

(** [l[idx]] on a Python list. *)
Definition list_getitem {A} (l : list A) (idx : Z) : result A :=
  let n := Z.of_nat (List.length l) in
  if (n <=? idx) || (idx <? - n) then Raise IndexError
  else match nth_error l (Z.to_nat (if idx <? 0 then idx + n else idx)) with
       | Some a => Ok a
       | None => Raise IndexError
       end.

(** [Subset.__len__]: [len(self.indices)]. *)
Definition subset_len (s : Subset) : Z := Z.of_nat (List.length (indices s)).

(** [Subset.__getitem__] on an integer: [self.dataset[self.indices[idx]]]. *)
Definition subset_getitem (float_of_str : string -> option float64)
    (s : Subset) (idx : Z) : result (ndarray * scalar) :=
  i <~ list_getitem (indices s) idx ;;
  get float_of_str (dataset s) i.

(** [BatchSampler.__iter__] with [drop_last=False]: indices are taken from
    the sampler one by one into [batch]; a batch that reaches
    [batch_size] is yielded and a new one begun; what is left at the end
    is yielded if it is not empty. *)
Fixpoint batches_from (batch_size : Z) (batch : list Z) (sampler : list Z)
    : list (list Z) :=
  match sampler with
  | [] => match batch with [] => [] | _ => [batch] end
  | idx :: rest =>
      let batch' := batch ++ [idx] in
      if Z.of_nat (List.length batch') =? batch_size
      then batch' :: batches_from batch_size [] rest
      else batches_from batch_size batch' rest
  end.

(** [BatchSampler(sampler, batch_size, drop_last=False)], iterated; a
    [batch_size] that is not positive is refused. *)
Definition BatchSampler (sampler : list Z) (batch_size : Z)
    : result (list (list Z)) :=
  if batch_size <=? 0 then Raise ValueError
  else Ok (batches_from batch_size [] sampler).

(** [BatchSampler.__len__] with [drop_last=False]:
    [(len(sampler) + batch_size - 1) // batch_size]. *)
Definition BatchSampler_len (n batch_size : Z) : Z :=
  (n + batch_size - 1) / batch_size.

End Loader.

(** * Properties *)

(** ** Positional access and conversion *)

Section PandasFacts.
Import Np Pd.

Variable float_of_str : string -> option float64.

Lemma len_nonneg (df : DataFrame) : 0 <= len df.
Proof. unfold len. lia. Qed.

Lemma iloc_out_of_bounds (df : DataFrame) (idx : Z) :
  idx < - len df \/ len df <= idx -> iloc df idx = Raise IndexError.
Proof.
  intros H. unfold iloc.
  destruct (len df <=? idx) eqn:E1; [reflexivity|].
  destruct (idx <? - len df) eqn:E2; [reflexivity|].
  apply Z.leb_gt in E1. apply Z.ltb_ge in E2. lia.
Qed.

Lemma iloc_in_bounds (df : DataFrame) (idx : Z) :
  - len df <= idx < len df ->
  iloc df idx =
    Ok (nth (Z.to_nat (if idx <? 0 then idx + len df else idx)) (rows df) []).
Proof.
  intros H. unfold iloc.
  destruct (len df <=? idx) eqn:E1; [apply Z.leb_le in E1; lia|].
  destruct (idx <? - len df) eqn:E2; [apply Z.ltb_lt in E2; lia|].
  reflexivity.
Qed.

(** [iloc] answers with a row exactly on [-len, len). *)
Lemma iloc_ok_iff (df : DataFrame) (idx : Z) :
  (exists r, iloc df idx = Ok r) <-> - len df <= idx < len df.
Proof.
  split.
  - intros [r Hr].
    destruct (Z_lt_dec idx (- len df)) as [Hlo|Hlo];
      [rewrite iloc_out_of_bounds in Hr by lia; discriminate|].
    destruct (Z_le_dec (len df) idx) as [Hhi|Hhi];
      [rewrite iloc_out_of_bounds in Hr by lia; discriminate|].
    lia.
  - intros H. rewrite iloc_in_bounds by assumption. eauto.
Qed.

Lemma iloc_raises_only_IndexError (df : DataFrame) (idx : Z) (e : exn) :
  iloc df idx = Raise e -> e = IndexError.
Proof.
  unfold iloc. destruct ((len df <=? idx) || (idx <? - len df)); congruence.
Qed.

(** A negative position in range names the row [len + idx]. *)
Lemma iloc_negative (df : DataFrame) (k : Z) :
  - len df <= k < 0 -> iloc df k = iloc df (len df + k).
Proof.
  intros H. rewrite !iloc_in_bounds by lia.
  destruct (k <? 0) eqn:E1; [|apply Z.ltb_ge in E1; lia].
  destruct (len df + k <? 0) eqn:E2; [apply Z.ltb_lt in E2; lia|].
  do 3 f_equal. lia.
Qed.

(** Every row [iloc] hands out is as long as the header. *)
Lemma iloc_width (df : DataFrame) (idx : Z) (r : Series) :
  iloc df idx = Ok r -> List.length r = List.length (columns df).
Proof.
  intros Hr.
  assert (Hb : - len df <= idx < len df) by (apply iloc_ok_iff; eauto).
  rewrite iloc_in_bounds in Hr by assumption. injection Hr as <-.
  pose proof (rectangular df) as Hrect. rewrite forallb_forall in Hrect.
  apply Nat.eqb_eq. apply (Hrect _). apply nth_In.
  unfold len in *. destruct (idx <? 0) eqn:E.
  - apply Z.ltb_lt in E. lia.
  - apply Z.ltb_ge in E. lia.
Qed.

Lemma to_float_raises (v : scalar) (e : exn) :
  to_float float_of_str v = Raise e -> e = ValueError \/ e = OverflowError.
Proof.
  destruct v as [z|f|b|t]; simpl; try discriminate.
  - destruct (float_of_int z); intros [= <-]; auto.
  - destruct (float_of_str t); intros [= <-]; auto.
Qed.

Lemma astype_float32_raises (dt : dtype) (v : scalar) (e : exn) :
  astype_float32 float_of_str dt v = Raise e ->
  e = ValueError \/ e = OverflowError.
Proof.
  intros H. apply (to_float_raises v). unfold astype_float32 in H.
  destruct dt, v; try discriminate;
    destruct (to_float float_of_str _) eqn:E; unfold rbind in H; congruence.
Qed.

(** The array has one element for each value of the row. *)
Lemma to_numpy_float32_length (dt : dtype) (s : Series) (a : list float32) :
  to_numpy_float32 float_of_str dt s = Ok a -> List.length a = List.length s.
Proof.
  revert a. induction s as [|v s IH]; intros a; simpl.
  - intros [= <-]. reflexivity.
  - destruct (astype_float32 float_of_str dt v); simpl; [|discriminate].
    destruct (to_numpy_float32 float_of_str dt s) as [xs|]; simpl; [|discriminate].
    intros [= <-]. simpl. f_equal. apply IH. reflexivity.
Qed.

(** What the conversion raises is the [ValueError] of a text or the
    [OverflowError] of an integer. *)
Lemma to_numpy_float32_raises (dt : dtype) (s : Series) (e : exn) :
  to_numpy_float32 float_of_str dt s = Raise e ->
  e = ValueError \/ e = OverflowError.
Proof.
  induction s as [|v s IH]; simpl; [discriminate|].
  destruct (astype_float32 float_of_str dt v) eqn:Hv; simpl.
  - destruct (to_numpy_float32 float_of_str dt s); simpl; [discriminate|].
    intros [= <-]. apply IH. reflexivity.
  - intros [= <-]. eapply astype_float32_raises. eassumption.
Qed.

(** A row of floats converts float by float, in any dtype. *)
Lemma to_numpy_float32_floats (dt : dtype) (fs : list float64) :
  to_numpy_float32 float_of_str dt (map PyFloat fs) = Ok (map float32_of_float fs).
Proof.
  induction fs as [|f fs IH]; [reflexivity|].
  simpl. rewrite IH. destruct dt; reflexivity.
Qed.

Lemma item_raises_only_ValueError (s : Series) (e : exn) :
  item s = Raise e -> e = ValueError.
Proof. destruct s as [|v [|w s]]; simpl; congruence. Qed.

Lemma item_single (s : Series) :
  List.length s = 1%nat -> exists v, item s = Ok v.
Proof. destruct s as [|v [|w s]]; simpl; try discriminate. eauto. Qed.

End PandasFacts.

(** ** The wrapper *)

Section DatasetFacts.
Import Np Pd Notebook.
Local Open Scope py_scope.

Variable float_of_str : string -> option float64.

Lemma size_is_targets_len (ds : CustomDataset) :
  size ds = Ok (len (targets_file ds)).
Proof. reflexivity. Qed.

(** Runs a method body: each library call either returns, and the body
    goes on, or raises, and the body stops there. *)
Ltac run_body :=
  unfold value, after, bind, attr, call, ret; simpl;
  repeat match goal with
         | |- context [match ?r with Ok _ => _ | Raise _ => _ end] =>
             destruct r; simpl
         end;
  try reflexivity.

(** [dataset[idx]] as a chain of fallible steps on the two frames. *)
Lemma get_steps (ds : CustomDataset) (idx : Z) :
  get float_of_str ds idx =
    (row <~ iloc (data_dir ds) idx ;;
     x <~ to_numpy_float32 float_of_str (row_dtype (data_dir ds)) row ;;
     lab <~ iloc (targets_file ds) idx ;;
     y <~ item lab ;;
     Ok (x, y)).
Proof. unfold get, __getitem__. run_body. Qed.

Lemma len_leaves_self (ds : CustomDataset) : after __len__ ds = ds.
Proof. reflexivity. Qed.

Lemma getitem_leaves_self (ds : CustomDataset) (idx : Z) :
  after (__getitem__ float_of_str idx) ds = ds.
Proof. unfold __getitem__. run_body. Qed.

Lemma perform_leaves_self (o : operation) (ds : CustomDataset) :
  perform float_of_str o ds = ds.
Proof. destruct o; [apply len_leaves_self | apply getitem_leaves_self]. Qed.

(** What [__init__] returns, read off its two reads. *)
Lemma init_inv (fs : files) (tp dp : string) tr ttr (ds : CustomDataset) :
  __init__ fs tp dp tr ttr = Ok ds ->
  exists t d, read_csv fs tp = Ok t /\ read_csv fs dp = Ok d /\
              ds = Build_CustomDataset t d tr ttr.
Proof.
  unfold __init__. destruct (read_csv fs tp) as [t|]; simpl; [|discriminate].
  destruct (read_csv fs dp) as [d|]; simpl; [|discriminate].
  intros [= <-]. eauto.
Qed.

Lemma init_ok (fs : files) (tp dp : string) tr ttr (t d : DataFrame) :
  read_csv fs tp = Ok t -> read_csv fs dp = Ok d ->
  __init__ fs tp dp tr ttr = Ok (Build_CustomDataset t d tr ttr).
Proof. intros Ht Hd. unfold __init__. rewrite Ht, Hd. reflexivity. Qed.

(** A returned feature vector has one entry per feature column. *)
Lemma get_width (ds : CustomDataset) (idx : Z) (x : ndarray) (y : scalar) :
  get float_of_str ds idx = Ok (x, y) ->
  List.length x = List.length (columns (data_dir ds)).
Proof.
  rewrite get_steps.
  destruct (iloc (data_dir ds) idx) as [row|] eqn:Hrow; simpl; [|discriminate].
  destruct (to_numpy_float32 float_of_str (row_dtype (data_dir ds)) row) as [x'|] eqn:Hx; simpl; [|discriminate].
  destruct (iloc (targets_file ds) idx) as [lab|]; simpl; [|discriminate].
  destruct (item lab); simpl; [|discriminate].
  intros [= <- _].
  rewrite (to_numpy_float32_length _ _ _ _ Hx). exact (iloc_width _ _ _ Hrow).
Qed.

(** Whatever [dataset[idx]] raises is an [IndexError], a [ValueError] or
    an [OverflowError]; the last two only past a feature row that is
    there. *)
Lemma get_raises (ds : CustomDataset) (idx : Z) (e : exn) :
  get float_of_str ds idx = Raise e ->
  e = IndexError \/
  (- len (data_dir ds) <= idx < len (data_dir ds) /\
   (e = ValueError \/ e = OverflowError)).
Proof.
  rewrite get_steps.
  destruct (iloc (data_dir ds) idx) as [row|] eqn:Hrow; simpl;
    [|intros [= <-]; left; eapply iloc_raises_only_IndexError; eassumption].
  assert (Hin : - len (data_dir ds) <= idx < len (data_dir ds))
    by (apply iloc_ok_iff; eauto).
  destruct (to_numpy_float32 float_of_str (row_dtype (data_dir ds)) row)
    as [x'|] eqn:Hx; simpl;
    [|intros [= <-]; right; split; [exact Hin|];
      eapply to_numpy_float32_raises; eassumption].
  destruct (iloc (targets_file ds) idx) as [lab|] eqn:Hlab; simpl;
    [|intros [= <-]; left; eapply iloc_raises_only_IndexError; eassumption].
  destruct (item lab) eqn:Hit; simpl; [discriminate|].
  intros [= <-]; right; split; [exact Hin|]; left;
    eapply item_raises_only_ValueError; eassumption.
Qed.


(** With as many feature rows as labels, a negative position in range
    is the position counted from the end, for both frames at once. *)
Lemma get_negative (ds : CustomDataset) (k : Z) :
  len (data_dir ds) = len (targets_file ds) ->
  - len (targets_file ds) <= k < 0 ->
  get float_of_str ds k = get float_of_str ds (len (targets_file ds) + k).
Proof.
  intros Hrows Hk. rewrite !get_steps.
  rewrite (iloc_negative (data_dir ds) k) by lia.
  rewrite (iloc_negative (targets_file ds) k) by lia.
  rewrite Hrows. reflexivity.
Qed.

End DatasetFacts.

(** ** Construction and size *)

Section Construction.
Import Np Pd Notebook Examples.

(** The notebook's assertion passes exactly on frames with the same
    number of rows; it runs on the frames in memory, before they are
    saved, and is no part of the class. *)
Lemma assert_same_rows_spec (x y : DataFrame) :
  assert_same_rows x y = Ok tt <-> len x = len y.
Proof.
  unfold assert_same_rows. destruct (len x =? len y) eqn:E.
  - apply Z.eqb_eq in E. tauto.
  - apply Z.eqb_neq in E. split; [discriminate | tauto].
Qed.

(** C1, as the spec has it, fails: from a labels file of two rows and
    a features file of one row the constructor returns a dataset. *)
Lemma init_accepts_mismatched_rows :
  len two_labels <> len one_row /\
  __init__ (folder two_labels one_row) "targets.csv" "data.csv" None None
    = Ok (paired two_labels one_row).
Proof. split; [discriminate | reflexivity]. Qed.

(** C1 (amended): [CustomDataset.__init__] compares no row counts.
    Whenever both files are read it returns the dataset that holds the
    two frames as read (and the transforms as passed), whatever their
    numbers of rows.  The check on row counts is the notebook's
    assertion, a step of its own: it passes on these frames exactly when
    they have the same number of rows. *)
Theorem init_holds_both_frames_unchecked
    (fs : files) (targets_path data_path : string)
    (tr : option (ndarray -> ndarray)) (ttr : option (scalar -> scalar))
    (t d : DataFrame) :
  read_csv fs targets_path = Ok t ->
  read_csv fs data_path = Ok d ->
  __init__ fs targets_path data_path tr ttr = Ok (Build_CustomDataset t d tr ttr) /\
  (assert_same_rows d t = Ok tt <-> len d = len t).
Proof.
  intros Ht Hd. split; [apply init_ok; assumption | apply assert_same_rows_spec].
Qed.

Lemma init_holds_both_frames_unchecked_witness :
  __init__ (folder two_labels three_rows) "targets.csv" "data.csv" None None
    = Ok (Build_CustomDataset two_labels three_rows None None) /\
  (assert_same_rows three_rows two_labels = Ok tt <-> len three_rows = len two_labels).
Proof.
  apply (init_holds_both_frames_unchecked
           (folder two_labels three_rows) "targets.csv" "data.csv" None None
           two_labels three_rows); reflexivity.
Defined.

(** C3, as the spec has it, fails: the dataset built from two labels
    and one feature row has size 2, not the 1 row of the features. *)
Lemma size_is_not_feature_rows :
  __init__ (folder two_labels one_row) "targets.csv" "data.csv" None None
    = Ok (paired two_labels one_row) /\
  size (paired two_labels one_row) = Ok 2 /\
  len one_row = 1.
Proof. repeat split. Qed.

(** C3 (amended): for a constructed dataset, [size()] is the row count
    of the labels file; it is the row count of the features file
    exactly when the two files have the same number of rows. *)
Theorem size_of_constructed
    (fs : files) (targets_path data_path : string)
    (tr : option (ndarray -> ndarray)) (ttr : option (scalar -> scalar))
    (ds : CustomDataset) :
  __init__ fs targets_path data_path tr ttr = Ok ds ->
  exists t d,
    read_csv fs targets_path = Ok t /\ read_csv fs data_path = Ok d /\
    size ds = Ok (len t) /\
    (size ds = Ok (len d) <-> len d = len t).
Proof.
  intros Hinit. destruct (init_inv _ _ _ _ _ _ Hinit) as (t & d & Ht & Hd & ->).
  exists t, d. rewrite size_is_targets_len. simpl.
  repeat split; try assumption.
  - intros [= H]. symmetry. exact H.
  - intros ->. reflexivity.
Qed.

Lemma size_of_constructed_witness :
  exists t d,
    read_csv (folder targets_150 data_150) "targets.csv" = Ok t /\
    read_csv (folder targets_150 data_150) "data.csv" = Ok d /\
    size (paired targets_150 data_150) = Ok (len t) /\
    (size (paired targets_150 data_150) = Ok (len d) <-> len d = len t).
Proof.
  apply (size_of_constructed (folder targets_150 data_150)
           "targets.csv" "data.csv" None None (paired targets_150 data_150)).
  reflexivity.
Defined.

(** C9: [size()] is read off the labels alone.  For any two frames the
    files give, equal in rows or not, the constructor returns a dataset
    and its size is the row count of the labels file. *)
Theorem size_from_labels_alone
    (fs : files) (targets_path data_path : string)
    (tr : option (ndarray -> ndarray)) (ttr : option (scalar -> scalar))
    (t d : DataFrame) :
  read_csv fs targets_path = Ok t ->
  read_csv fs data_path = Ok d ->
  exists ds, __init__ fs targets_path data_path tr ttr = Ok ds /\
             size ds = Ok (len t).
Proof.
  intros Ht Hd. eexists. split; [apply (init_ok _ _ _ _ _ _ _ Ht Hd)|].
  reflexivity.
Qed.

Lemma size_from_labels_alone_witness :
  len one_row <> len two_labels /\
  exists ds,
    __init__ (folder two_labels one_row) "targets.csv" "data.csv" None None = Ok ds /\
    size ds = Ok (len two_labels).
Proof.
  split; [discriminate|].
  apply (size_from_labels_alone (folder two_labels one_row)
           "targets.csv" "data.csv" None None two_labels one_row); reflexivity.
Defined.

End Construction.

(** ** Indexed access *)

Module Access.
Import Np Pd Notebook Examples.




(** C4: on a constructed dataset, the feature vectors that [get]
    returns at two valid indices have the same length, the number of
    feature columns. *)
Theorem get_vectors_same_length
    (float_of_str : string -> option float64)
    (ds : CustomDataset) (n i j : Z)
    (x x' : ndarray) (y y' : scalar) :
  size ds = Ok n ->
  0 <= i < n -> 0 <= j < n ->
  get float_of_str ds i = Ok (x, y) ->
  get float_of_str ds j = Ok (x', y') ->
  List.length x = List.length x' /\
  List.length x = List.length (columns (data_dir ds)).
Proof.
  intros _ _ _ Hi Hj.
  rewrite (get_width _ _ _ _ _ Hi), (get_width _ _ _ _ _ Hj). split; reflexivity.
Qed.

Lemma get_vectors_same_length_witness :
  List.length (map float32_of_float
                 [decimal 51 10; decimal 35 10; decimal 14 10; decimal 2 10])
    = List.length (map float32_of_float
                     [decimal 49 10; decimal 30 10; decimal 14 10; decimal 2 10]) /\
  List.length (map float32_of_float
                 [decimal 51 10; decimal 35 10; decimal 14 10; decimal 2 10])
    = List.length (columns (data_dir (paired two_labels two_rows))).
Proof.
  apply (get_vectors_same_length no_text (paired two_labels two_rows) 2 0 1
           _ _ (PyInt 0) (PyInt 1)).
  - reflexivity.
  - lia.
  - lia.
  - reflexivity.
  - reflexivity.
Defined.

(** On a dataset with as many feature rows as labels, one label column
    and feature rows that convert, [get] returns at every valid index:
    the two hypotheses on [get] above can be met throughout. *)
Lemma get_returns_on_paired_tables
    (float_of_str : string -> option float64)
    (ds : CustomDataset) (i : Z) :
  len (data_dir ds) = len (targets_file ds) ->
  List.length (columns (targets_file ds)) = 1%nat ->
  (forall row, In row (rows (data_dir ds)) ->
               exists x, to_numpy_float32 float_of_str (row_dtype (data_dir ds)) row
                         = Ok x) ->
  0 <= i < len (targets_file ds) ->
  exists x y, get float_of_str ds i = Ok (x, y).
Proof.
  intros Hrows Hcol Hconv Hi. rewrite get_steps.
  rewrite iloc_in_bounds by lia.
  destruct (i <? 0) eqn:E; [apply Z.ltb_lt in E; lia|]. simpl.
  destruct (Hconv (nth (Z.to_nat i) (rows (data_dir ds)) [])) as [x Hx].
  { apply nth_In. unfold len in *. lia. }
  rewrite Hx. simpl.
  destruct (iloc (targets_file ds) i) as [lab|] eqn:Hlab.
  - simpl. destruct (item_single lab) as [y Hy].
    { rewrite (iloc_width _ _ _ Hlab). exact Hcol. }
    rewrite Hy. simpl. eauto.
  - rewrite iloc_in_bounds in Hlab by lia. discriminate.
Qed.



(** The four [float32] values of C6, bit for bit: 5.1, 3.5, 1.4 and 0.2
    rounded to 24 bits. *)
Lemma iris_row0_float32 :
  map float32_of_float
    [decimal 51 10; decimal 35 10; decimal 14 10; decimal 2 10]
  = [S754_finite false 10695475 (-21); S754_finite false 14680064 (-22);
     S754_finite false 11744051 (-23); S754_finite false 13421773 (-26)].
Proof. vm_compute. reflexivity. Qed.

(** C8: no operation of the wrapper changes the object.  [size()] and
    [get(index)] leave both frames (and the transforms) as they were,
    any run of such calls does, and a repeated [get(i)] gives the same
    result. *)
Theorem operations_leave_dataset_unchanged
    (float_of_str : string -> option float64)
    (ds : CustomDataset) (idx : Z) (calls : list operation) :
  after __len__ ds = ds /\
  after (__getitem__ float_of_str idx) ds = ds /\
  perform_all float_of_str calls ds = ds /\
  value (__getitem__ float_of_str idx) (perform_all float_of_str calls ds)
    = value (__getitem__ float_of_str idx) ds /\
  value (__getitem__ float_of_str idx) (after (__getitem__ float_of_str idx) ds)
    = value (__getitem__ float_of_str idx) ds.
Proof.
  assert (Hall : forall os s, perform_all float_of_str os s = s).
  { induction os as [|o os IH]; intros s; [reflexivity|].
    unfold perform_all in *. simpl. rewrite perform_leaves_self. apply IH. }
  repeat split.
  - apply getitem_leaves_self.
  - apply Hall.
  - rewrite Hall. reflexivity.
  - rewrite getitem_leaves_self. reflexivity.
Qed.

(** The wrapper's share of a round trip through files: two datasets that
    hold equal frames answer [size()] and every [get(i)] alike. *)
Lemma equal_frames_equal_answers
    (float_of_str : string -> option float64) (ds ds' : CustomDataset) :
  targets_file ds' = targets_file ds ->
  data_dir ds' = data_dir ds ->
  size ds' = size ds /\
  forall i, get float_of_str ds' i = get float_of_str ds i.
Proof.
  intros Ht Hd. split.
  - rewrite !size_is_targets_len, Ht. reflexivity.
  - intros i. rewrite !get_steps, Ht, Hd. reflexivity.
Qed.

(** C10, as stated, fails: the constructed dataset of two labels and
    one feature row has size 2, and [get(-2)] raises [IndexError]; and
    with two rows in both frames but two label columns, [get(-1)] raises
    the [ValueError] of [item]. *)
Lemma get_negative_raises_on_short_features :
  (__init__ (folder two_labels one_row) "targets.csv" "data.csv" None None
     = Ok (paired two_labels one_row) /\
   size (paired two_labels one_row) = Ok 2 /\
   -2 <= -2 < 0 /\
   get no_text (paired two_labels one_row) (-2) = Raise IndexError) /\
  (__init__ (folder two_label_columns two_rows) "targets.csv" "data.csv" None None
     = Ok (paired two_label_columns two_rows) /\
   size (paired two_label_columns two_rows) = Ok 2 /\
   -2 <= -1 < 0 /\
   get no_text (paired two_label_columns two_rows) (-1) = Raise ValueError).
Proof. repeat split; lia. Qed.

(** C10 (amended): on a dataset whose feature table has as many rows as
    its label table, [N > 0] of them, [get(k)] for [k] in [-N, 0) does
    what [get(N + k)] does and raises no [IndexError]; it returns the
    record at position [N + k], feature row converted and label, whenever
    that row converts and the label row is a single value. *)
Theorem get_negative_is_from_the_end
    (float_of_str : string -> option float64)
    (ds : CustomDataset) (n k : Z) :
  size ds = Ok n ->
  len (data_dir ds) = n ->
  0 < n ->
  - n <= k < 0 ->
  get float_of_str ds k = get float_of_str ds (n + k) /\
  get float_of_str ds k <> Raise IndexError /\
  (forall x y,
      to_numpy_float32 float_of_str (row_dtype (data_dir ds))
        (nth (Z.to_nat (n + k)) (rows (data_dir ds)) []) = Ok x ->
      nth (Z.to_nat (n + k)) (rows (targets_file ds)) [] = [y] ->
      get float_of_str ds k = Ok (x, y)).
Proof.
  rewrite size_is_targets_len. intros [= <-] Hrows _ Hk.
  assert (Hstep : get float_of_str ds k =
                  (x <~ to_numpy_float32 float_of_str (row_dtype (data_dir ds))
                          (nth (Z.to_nat (len (targets_file ds) + k))
                               (rows (data_dir ds)) []) ;;
                   y <~ item (nth (Z.to_nat (len (targets_file ds) + k))
                                  (rows (targets_file ds)) []) ;;
                   Ok (x, y))%py).
  { rewrite get_steps. rewrite !iloc_in_bounds by lia.
    destruct (k <? 0) eqn:E; [|apply Z.ltb_ge in E; lia].
    simpl. rewrite Hrows, (Z.add_comm k). reflexivity. }
  split; [apply get_negative; lia|]. split.
  - rewrite Hstep.
    destruct (to_numpy_float32 _ _ _) as [x|e] eqn:Hx; simpl.
    + destruct (item _) as [y|e] eqn:Hy; simpl; [discriminate|].
      rewrite (item_raises_only_ValueError _ _ Hy). discriminate.
    + destruct (to_numpy_float32_raises _ _ _ _ Hx) as [-> | ->]; discriminate.
  - intros x y Hx Hy. rewrite Hstep, Hx, Hy. reflexivity.
Qed.

Lemma get_negative_is_from_the_end_witness :
  get no_text (paired two_labels two_rows) (-1)
    = get no_text (paired two_labels two_rows) (2 + -1) /\
  get no_text (paired two_labels two_rows) (-1) <> Raise IndexError /\
  (forall x y,
      to_numpy_float32 no_text (row_dtype (data_dir (paired two_labels two_rows)))
        (nth (Z.to_nat (2 + -1)) (rows (data_dir (paired two_labels two_rows))) [])
        = Ok x ->
      nth (Z.to_nat (2 + -1)) (rows (targets_file (paired two_labels two_rows))) []
        = [y] ->
      get no_text (paired two_labels two_rows) (-1) = Ok (x, y)).
Proof.
  apply (get_negative_is_from_the_end no_text (paired two_labels two_rows) 2 (-1)).
  - reflexivity.
  - reflexivity.
  - lia.
  - lia.
Defined.

End Access.

(** ** Saving and loading again *)

Module Saving.
Import Np Pd Notebook SaveCell Examples.
Local Open Scope string_scope.







(** The Iris files of the notebook, saved over an empty folder and
    loaded: 150 records, the first one as saved. *)
Lemma iris_saved_and_loaded :
  exists ds',
    load "Iris" (save "Iris" data_150 targets_150 (fun _ => Raise FileNotFoundError))
      = Ok ds' /\
    size ds' = Ok 150 /\
    get no_text ds' 0 = get no_text (paired targets_150 data_150) 0.
Proof. eexists. split; [reflexivity|]. split; reflexivity. Qed.

End Saving.

(** ** Binary64 rounding, as far as [int(0.8 * n)] needs it *)

Module Rounding.
Import Np.

(** The digit count of [SpecFloat] is the size of the binary numeral. *)
Lemma digits2_pos_size (p : positive) : digits2_pos p = Pos.size p.
Proof. induction p; simpl; congruence. Qed.

(** A positive number of [d] digits lies in [2^(d-1), 2^d). *)
Lemma digits2_pos_bounds (p : positive) :
  2 ^ (Zpos (digits2_pos p) - 1) <= Zpos p < 2 ^ Zpos (digits2_pos p).
Proof.
  rewrite digits2_pos_size.
  pose proof (Pos.size_gt p) as Hgt. pose proof (Pos.size_le p) as Hle.
  apply Pos2Z.pos_lt_pos in Hgt. apply Pos2Z.pos_le_pos in Hle.
  rewrite Pos2Z.inj_pow in Hgt, Hle.
  replace (Zpos (Pos.size p)) with (Zpos (Pos.size p) - 1 + 1) in Hle by lia.
  rewrite Z.pow_add_r in Hle by lia.
  change (2 ^ 1) with 2 in Hle. change (Zpos p~0) with (2 * Zpos p) in Hle. lia.
Qed.

(** Appending [k] zero bits multiplies by [2^k]. *)
Lemma iter_xO_pow2 (p k : positive) :
  Zpos (Pos.iter xO p k) = Zpos p * 2 ^ Zpos k.
Proof.
  induction k as [|k IH] using Pos.peano_ind.
  - simpl. lia.
  - rewrite Pos.iter_succ, Pos2Z.inj_xO, IH, Pos2Z.inj_succ, Z.pow_succ_r by lia. lia.
Qed.

(** One right shift halves the mantissa (the lost bit goes to the
    round and sticky flags). *)
Lemma shr_1_half (mrs : shr_record) :
  0 <= shr_m mrs -> shr_m (shr_1 mrs) = shr_m mrs / 2.
Proof.
  destruct mrs as [m r s]. simpl. intros Hm.
  destruct m as [|[p|p|]|p]; simpl; try lia; try reflexivity.
  - rewrite Pos2Z.inj_xI. apply Z.div_unique with (r := 1); lia.
  - rewrite Pos2Z.inj_xO. apply Z.div_unique with (r := 0); lia.
Qed.

(** [p] right shifts divide the mantissa by [2^p]. *)
Lemma iter_shr_1_div (p : positive) :
  forall mrs, 0 <= shr_m mrs ->
    shr_m (iter_pos shr_1 p mrs) = shr_m mrs / 2 ^ Zpos p.
Proof.
  assert (Hpos : forall a, 0 <= a -> 0 <= a / 2) by (intros; apply Z.div_pos; lia).
  induction p as [p IH|p IH|]; intros mrs Hm; simpl iter_pos.
  - assert (H1 : 0 <= shr_m (shr_1 mrs)) by (rewrite shr_1_half; auto).
    assert (H2 : 0 <= shr_m (iter_pos shr_1 p (shr_1 mrs))).
    { rewrite IH by assumption. apply Z.div_pos; [assumption|]. apply Z.pow_pos_nonneg; lia. }
    rewrite IH, IH, shr_1_half by assumption.
    rewrite !Z.div_div by (try apply Z.pow_pos_nonneg; lia).
    f_equal. replace (Zpos p~1) with (1 + Zpos p + Zpos p) by lia.
    rewrite !Z.pow_add_r by lia. change (2 ^ 1) with 2. lia.
  - assert (H2 : 0 <= shr_m (iter_pos shr_1 p mrs)).
    { rewrite IH by assumption. apply Z.div_pos; [assumption|]. apply Z.pow_pos_nonneg; lia. }
    rewrite IH, IH by assumption.
    rewrite !Z.div_div by (try apply Z.pow_pos_nonneg; lia).
    f_equal. replace (Zpos p~0) with (Zpos p + Zpos p) by lia.
    rewrite !Z.pow_add_r by lia. lia.
  - rewrite shr_1_half by assumption. reflexivity.
Qed.

(** [shr] by [n]: the mantissa divided by [2^n], the exponent raised
    by [n]. *)
Lemma shr_div (m e n : Z) :
  0 <= m -> 0 <= n ->
  shr_m (fst (shr (shr_record_of_loc m loc_Exact) e n)) = m / 2 ^ n /\
  snd (shr (shr_record_of_loc m loc_Exact) e n) = e + n.
Proof.
  intros Hm Hn. destruct n as [|p|p]; simpl.
  - rewrite Z.div_1_r. split; [reflexivity | lia].
  - split; [|reflexivity]. rewrite iter_shr_1_div by (simpl; assumption). reflexivity.
  - lia.
Qed.

(** Rounding to nearest keeps the truncated mantissa or adds one. *)
Lemma round_nearest_even_step (m : Z) (l : location) :
  round_nearest_even m l = m \/ round_nearest_even m l = m + 1.
Proof.
  destruct l as [|[| |]]; simpl; auto. destruct (Z.even m); auto.
Qed.

Lemma Zdigits2_bounds (m : Z) :
  0 < m -> 2 ^ (Zdigits2 m - 1) <= m < 2 ^ Zdigits2 m.
Proof. destruct m as [|p|p]; try lia. intros _. apply digits2_pos_bounds. Qed.

Lemma Zdigits2_pos (m : Z) : 0 < m -> 0 < Zdigits2 m.
Proof. destruct m; simpl; lia. Qed.

(** The digits of a number caught between two powers of two. *)
Lemma Zdigits2_between (m a b : Z) :
  0 <= a -> 2 ^ a <= m < 2 ^ b -> a < Zdigits2 m <= b.
Proof.
  intros Ha [Hlo Hhi].
  assert (Hm : 0 < m) by (pose proof (Z.pow_pos_nonneg 2 a); lia).
  pose proof (Zdigits2_bounds m Hm) as [Hd1 Hd2].
  pose proof (Zdigits2_pos m Hm) as Hd.
  split.
  - apply (Z.pow_lt_mono_r_iff 2); lia.
  - destruct (Z_le_dec (Zdigits2 m) b) as [|Hn]; [assumption|].
    assert (2 ^ b <= 2 ^ (Zdigits2 m - 1)) by (apply Z.pow_le_mono_r; lia).
    lia.
Qed.

(** Bringing a mantissa of more than 53 digits down to 53, away from
    the subnormal range. *)
Lemma shr_fexp_exact (m e : Z) :
  0 < m -> -1074 <= e + Zdigits2 m - 53 -> 53 <= Zdigits2 m ->
  shr_m (fst (shr_fexp 53 1024 m e loc_Exact)) = m / 2 ^ (Zdigits2 m - 53) /\
  snd (shr_fexp 53 1024 m e loc_Exact) = e + (Zdigits2 m - 53).
Proof.
  intros Hm He Hd. unfold shr_fexp.
  replace (fexp 53 1024 (Zdigits2 m + e) - e) with (Zdigits2 m - 53)
    by (unfold fexp, emin; lia).
  apply shr_div; lia.
Qed.

(** [int] of a rounded positive value with a negative exponent: the
    53-digit mantissa [m1], the truncation of [m] or one more, shifted
    down by the exponent. *)
Lemma int_of_round_aux (m e : Z) :
  0 < m -> 53 <= Zdigits2 m ->
  -1074 <= e + Zdigits2 m - 53 -> e + Zdigits2 m - 53 + 1 < 0 ->
  exists m1,
    (m1 = m / 2 ^ (Zdigits2 m - 53) \/ m1 = m / 2 ^ (Zdigits2 m - 53) + 1) /\
    int_of_float (binary_round_aux 53 1024 false m e loc_Exact)
      = Ok (m1 / 2 ^ (- (e + (Zdigits2 m - 53)))).
Proof.
  intros Hm Hd Hlo Hhi.
  set (s := Zdigits2 m - 53).
  destruct (shr_fexp_exact m e Hm Hlo Hd) as [H1 H2]. fold s in H1, H2.
  unfold binary_round_aux.
  destruct (shr_fexp 53 1024 m e loc_Exact) as [mrs' e'] eqn:E1. simpl in H1, H2.
  set (m1 := round_nearest_even (shr_m mrs') (loc_of_shr_record mrs')).
  assert (Hm1 : m1 = m / 2 ^ s \/ m1 = m / 2 ^ s + 1).
  { rewrite <- H1. apply round_nearest_even_step. }
  exists m1. split; [exact Hm1|].
  (* the quotient keeps 53 digits *)
  pose proof (Zdigits2_bounds m Hm) as [Hb1 Hb2].
  assert (Hs : 0 <= s) by (unfold s; lia).
  assert (HA : 0 < 2 ^ s) by (apply Z.pow_pos_nonneg; lia).
  assert (HQ : 2 ^ 52 <= m / 2 ^ s < 2 ^ 53).
  { replace (Zdigits2 m - 1) with (52 + s) in Hb1 by (unfold s; lia).
    replace (Zdigits2 m) with (53 + s) in Hb2 by (unfold s; lia).
    rewrite Z.pow_add_r in Hb1, Hb2 by lia. split.
    - apply Z.div_le_lower_bound; lia.
    - apply Z.div_lt_upper_bound; lia. }
  assert (Hm1' : 2 ^ 52 <= m1 < 2 ^ 54).
  { change (2 ^ 54) with (2 * 2 ^ 53). lia. }
  assert (Hm1pos : 0 < m1) by (change (2 ^ 52) with 4503599627370496 in Hm1'; lia).
  pose proof (Zdigits2_between m1 52 54 ltac:(lia) Hm1') as Hd1.
  destruct (shr_fexp_exact m1 e' Hm1pos ltac:(lia) ltac:(lia)) as [H3 H4].
  destruct (shr_fexp 53 1024 m1 e' loc_Exact) as [mrs'' e''] eqn:E2. simpl in H3, H4.
  set (n := Zdigits2 m1 - 53) in *.
  assert (Hn : 0 <= n <= 1) by (unfold n; lia).
  assert (Hq : 0 < shr_m mrs'').
  { rewrite H3. apply Z.div_str_pos. split; [apply Z.pow_pos_nonneg; lia|].
    assert (2 ^ n <= 2 ^ 1) by (apply Z.pow_le_mono_r; lia).
    change (2 ^ 1) with 2 in *. change (2 ^ 52) with 4503599627370496 in *. lia. }
  destruct (shr_m mrs'') as [|q|q] eqn:Eq; try lia.
  destruct (e'' <=? 1024 - 53) eqn:Ee; [|apply Z.leb_gt in Ee; lia].
  unfold int_of_float.
  destruct (0 <=? e'') eqn:E0; [apply Z.leb_le in E0; lia|].
  f_equal. rewrite Z.shiftr_div_pow2 by lia. rewrite H3.
  rewrite Z.div_div by (try apply Z.pow_pos_nonneg; lia).
  rewrite <- Z.pow_add_r by lia. do 2 f_equal. lia.
Qed.

(** The literal 0.8 as a binary64: [0x1999999999999A * 2^-53]. *)
Lemma decimal_8_10 : decimal 8 10 = S754_finite false 7205759403792794 (-53).
Proof. vm_compute. reflexivity. Qed.

(** An exact value of 53 digits is its own rounding. *)
Lemma round_aux_53_digits (p : positive) (e : Z) :
  Zdigits2 (Zpos p) = 53 -> -1074 <= e <= 971 ->
  binary_round_aux 53 1024 false (Zpos p) e loc_Exact = S754_finite false p e.
Proof.
  intros Hd He. unfold binary_round_aux, shr_fexp. rewrite Hd.
  replace (fexp 53 1024 (53 + e) - e) with 0 by (unfold fexp, emin; lia).
  simpl shr. cbv beta iota. simpl shr_m. simpl loc_of_shr_record.
  simpl round_nearest_even. rewrite Hd.
  replace (fexp 53 1024 (53 + e) - e) with 0 by (unfold fexp, emin; lia).
  simpl. destruct (e <=? 971) eqn:E; [reflexivity | apply Z.leb_gt in E; lia].
Qed.

(** [float(n)] for a positive [n] below [2^53] is [n] itself, its
    mantissa shifted up to 53 digits. *)
Lemma float_of_int_exact (p : positive) :
  Zpos p < 2 ^ 53 ->
  exists mz,
    float_of_int (Zpos p) = S754_finite false mz (Zdigits2 (Zpos p) - 53) /\
    Zpos mz = Zpos p * 2 ^ (53 - Zdigits2 (Zpos p)) /\
    2 ^ 52 <= Zpos mz < 2 ^ 53.
Proof.
  intros Hp.
  pose proof (Zdigits2_bounds (Zpos p) ltac:(lia)) as [Hb1 Hb2].
  pose proof (Zdigits2_pos (Zpos p) ltac:(lia)) as Hd0.
  set (d := Zdigits2 (Zpos p)) in *.
  assert (Hd : d <= 53).
  { destruct (Z_le_dec d 53) as [|Hn]; [assumption|].
    assert (2 ^ 53 <= 2 ^ (d - 1)) by (apply Z.pow_le_mono_r; lia). lia. }
  unfold float_of_int, binary_normalize, binary_round.
  change (Zpos (digits2_pos p)) with d. rewrite Z.add_0_r.
  replace (fexp 53 1024 d) with (d - 53) by (unfold fexp, emin; lia).
  unfold shl_align. rewrite Z.sub_0_r.
  destruct (d - 53) as [|k|k] eqn:Ek; try lia.
  - (* 53 digits already *)
    exists p. assert (d = 53) by lia.
    rewrite round_aux_53_digits by (fold d; lia).
    replace (53 - d) with 0 by lia. rewrite Z.mul_1_r.
    replace (d - 1) with 52 in Hb1 by lia. replace d with 53 in Hb2 by lia.
    repeat split; lia.
  - exists (Pos.iter xO p k).
    assert (Hmz : Zpos (Pos.iter xO p k) = Zpos p * 2 ^ (53 - d)).
    { rewrite iter_xO_pow2. do 2 f_equal. lia. }
    assert (Hr : 2 ^ 52 <= Zpos (Pos.iter xO p k) < 2 ^ 53).
    { assert (E52 : 2 ^ 52 = 2 ^ (d - 1) * 2 ^ (53 - d))
        by (rewrite <- Z.pow_add_r by lia; f_equal; lia).
      assert (E53 : 2 ^ 53 = 2 ^ d * 2 ^ (53 - d))
        by (rewrite <- Z.pow_add_r by lia; f_equal; lia).
      assert (0 < 2 ^ (53 - d)) by (apply Z.pow_pos_nonneg; lia).
      rewrite Hmz, E52, E53.
      split; [apply Z.mul_le_mono_nonneg_r | apply Z.mul_lt_mono_pos_r]; lia. }
    rewrite round_aux_53_digits.
    + repeat split; assumption || lia.
    + pose proof (Zdigits2_between _ 52 53 ltac:(lia) Hr). lia.
    + lia.
Qed.

(** The arithmetic behind [int(0.8 * n)]: the binary64 nearest to 0.8 is
    [M / 2^53] with [5 M = 4 * 2^53 + 2]. *)
Lemma product_floor (n : Z) :
  0 <= n < 2 ^ 50 ->
  (7205759403792794 * n) / 2 ^ 53 = 4 * n / 5 /\
  20 * ((7205759403792794 * n) mod 2 ^ 53) < 17 * 2 ^ 53.
Proof.
  change (2 ^ 50) with 1125899906842624.
  change (2 ^ 53) with 9007199254740992.
  intros Hn. Z.div_mod_to_equations. lia.
Qed.

(** A quotient [q] of [k*a*b + r*c] by [a], off by at most one, still
    divides by [b] to [k] when the rest [r*c] is below 85% of [a*b]. *)
Lemma div_after_rounding (k r a b c d q m1 : Z) :
  0 < a -> 8 <= b -> 0 <= c -> 0 <= r -> 0 <= k ->
  a * b = c * d ->
  20 * r < 17 * d ->
  q = (k * d * c + r * c) / a ->
  m1 = q \/ m1 = q + 1 ->
  m1 / b = k.
Proof.
  intros Ha Hb Hc Hr Hk Hab Hrd Hq Hm1.
  set (m := k * d * c + r * c) in *.
  assert (Hm : m = k * b * a + r * c) by (unfold m; nia).
  assert (Hq1 : q * a <= m < (q + 1) * a).
  { subst q. pose proof (Z.mul_div_le m a Ha).
    pose proof (Z.mul_succ_div_gt m a Ha). lia. }
  assert (Hrc : 20 * (r * c) <= 17 * (a * b)) by nia.
  assert (Hlow : k * b <= q) by nia.
  assert (Hup : 20 * q < 20 * (k * b) + 17 * b + 1) by nia.
  symmetry. apply Z.div_unique with (r := m1 - k * b); lia.
Qed.

(** [int(0.8 * n)] is [floor(4 n / 5)] for every [n] below [2^50]. *)
Lemma train_size_floor (n : Z) :
  0 <= n < 2 ^ 50 -> SplitCell.train_size n = Ok (4 * n / 5).
Proof.
  intros Hn. unfold SplitCell.train_size. rewrite decimal_8_10.
  destruct n as [|p|p]; try lia; [reflexivity|].
  assert (Hp53 : Zpos p < 2 ^ 53).
  { change (2 ^ 50) with 1125899906842624 in Hn.
    change (2 ^ 53) with 9007199254740992. lia. }
  destruct (float_of_int_exact p Hp53) as (mz & -> & Hmz & Hmzr).
  pose proof (Zdigits2_bounds (Zpos p) ltac:(lia)) as [Hb1 Hb2].
  pose proof (Zdigits2_pos (Zpos p) ltac:(lia)) as Hd0.
  set (d := Zdigits2 (Zpos p)) in *.
  assert (Hd : d <= 50).
  { destruct (Z_le_dec d 50) as [|Hgt]; [assumption|].
    assert (2 ^ 50 <= 2 ^ (d - 1)) by (apply Z.pow_le_mono_r; lia). lia. }
  unfold fmul, SFmul. simpl xorb.
  set (m := Zpos (7205759403792794 * mz)).
  assert (Hm : m = 7205759403792794 * Zpos mz) by reflexivity.
  assert (Hmr : 2 ^ 104 <= m < 2 ^ 106).
  { rewrite Hm. change (2 ^ 104) with (2 ^ 52 * 2 ^ 52).
    change (2 ^ 106) with (2 ^ 53 * 2 ^ 53).
    change (2 ^ 52) with 4503599627370496 in *.
    change (2 ^ 53) with 9007199254740992 in *. lia. }
  pose proof (Zdigits2_between m 104 106 ltac:(lia) Hmr) as Hdm.
  assert (Hmpos : 0 < m) by (unfold m; lia).
  destruct (int_of_round_aux m (-53 + (d - 53)) Hmpos) as (m1 & Hm1 & ->); try lia.
  f_equal.
  set (dm := Zdigits2 m) in *.
  destruct (product_floor (Zpos p) Hn) as [HK HR].
  rewrite <- HK.
  apply (div_after_rounding
           ((7205759403792794 * Zpos p) / 2 ^ 53)
           ((7205759403792794 * Zpos p) mod 2 ^ 53)
           (2 ^ (dm - 53)) (2 ^ (- (-53 + (d - 53) + (dm - 53))))
           (2 ^ (53 - d)) (2 ^ 53)
           (m / 2 ^ (dm - 53)) m1).
  - apply Z.pow_pos_nonneg; lia.
  - change 8 with (2 ^ 3). apply Z.pow_le_mono_r; lia.
  - apply Z.pow_nonneg; lia.
  - apply Z.mod_pos_bound. reflexivity.
  - apply Z.div_pos; [lia | reflexivity].
  - rewrite <- !Z.pow_add_r by lia. f_equal. lia.
  - exact HR.
  - f_equal. rewrite Hm, Hmz.
    rewrite <- Z.mul_add_distr_r. rewrite (Z.mul_comm _ (2 ^ 53)).
    rewrite <- Z.div_mod by (change (2 ^ 53) with 9007199254740992; lia).
    ring.
  - exact Hm1.
Qed.

(** Past [2^52] the binary64 product is no longer the exact one: the
    bound above is not an artefact of the proof. *)
Lemma train_size_past_2_52 :
  SplitCell.train_size (2 ^ 52 + 1) = Ok 3602879701896398 /\
  4 * (2 ^ 52 + 1) / 5 = 3602879701896397.
Proof. split; vm_compute; reflexivity. Qed.

End Rounding.

(** ** The train/test split *)

Module Split.
Import Np Pd Notebook Torch SplitCell Examples Rounding.

Lemma slice_bound_inside (n i : Z) : 0 <= i <= n -> slice_bound n i = i.
Proof.
  intros H. unfold slice_bound.
  destruct (i <? 0) eqn:E; [apply Z.ltb_lt in E; lia | lia].
Qed.

(** [l[0:a]] and [l[a:len(l)]] are the first [a] items and the rest. *)
Lemma slice_prefix {A} (l : list A) (a : Z) :
  0 <= a <= Z.of_nat (List.length l) -> slice l 0 a = firstn (Z.to_nat a) l.
Proof.
  intros H. unfold slice. rewrite !slice_bound_inside by lia.
  rewrite Z.sub_0_r. reflexivity.
Qed.

Lemma slice_suffix {A} (l : list A) (a n : Z) :
  Z.of_nat (List.length l) = n -> 0 <= a <= n ->
  slice l a n = skipn (Z.to_nat a) l.
Proof.
  intros Hn H. unfold slice. rewrite Hn, !slice_bound_inside by lia.
  apply firstn_all2. rewrite length_skipn. lia.
Qed.

Lemma arange_length (n : Z) : List.length (arange n) = Z.to_nat n.
Proof. unfold arange. rewrite length_map, length_seq. reflexivity. Qed.

Lemma arange_In (n i : Z) : In i (arange n) <-> 0 <= i < n.
Proof.
  unfold arange. rewrite in_map_iff. split.
  - intros (k & <- & Hk). apply in_seq in Hk. lia.
  - intros H. exists (Z.to_nat i). split; [lia|]. apply in_seq. lia.
Qed.

Lemma arange_NoDup (n : Z) : NoDup (arange n).
Proof.
  unfold arange. apply Injective_map_NoDup; [|apply seq_NoDup].
  intros a b. apply Nat2Z.inj.
Qed.

Lemma NoDup_app_disjoint {A} (l1 l2 : list A) :
  NoDup (l1 ++ l2) -> forall x, In x l1 -> ~ In x l2.
Proof.
  induction l1 as [|a l1 IH]; simpl; intros Hnd x Hx; [contradiction|].
  inversion Hnd as [|? ? Hnotin Hnd']; subst.
  destruct Hx as [<- | Hx].
  - intros Hin. apply Hnotin. apply in_or_app. right. exact Hin.
  - apply IH; assumption.
Qed.

(** The lengths the notebook passes are taken as they are. *)
Lemma resolve_two_lengths (n a : Z) :
  0 <= n -> a = 4 * n / 5 ->
  resolve_lengths n [a; n - a] = Ok [a; n - a].
Proof.
  intros Hn Ha. unfold resolve_lengths, sum. simpl fold_right.
  destruct (a + (n - a + 0) =? 1) eqn:E; [|reflexivity].
  apply Z.eqb_eq in E. assert (n = 1) by lia. subst n.
  change (4 * 1 / 5) with 0 in Ha. subst a. reflexivity.
Qed.

Lemma random_split_two (randperm : Z -> list Z) (ds : CustomDataset) (n a : Z) :
  size ds = Ok n -> 0 <= a <= n -> a = 4 * n / 5 ->
  Z.of_nat (List.length (randperm n)) = n ->
  random_split randperm ds [a; n - a]
    = Ok [Build_Subset ds (firstn (Z.to_nat a) (randperm n));
          Build_Subset ds (skipn (Z.to_nat a) (randperm n))].
Proof.
  intros Hsize Ha Ea Hlen.
  unfold random_split. rewrite Hsize. unfold rbind at 1.
  rewrite (resolve_two_lengths n a ltac:(lia) Ea). unfold rbind.
  assert (Hsum : sum [a; n - a] = n) by (unfold sum; simpl; lia).
  rewrite Hsum, Z.eqb_refl. unfold subsets.
  rewrite Z.add_0_l.
  replace (a - a) with 0 by lia.
  replace (a + (n - a) - (n - a)) with a by lia.
  replace (a + (n - a)) with n by lia.
  rewrite (slice_prefix (randperm n) a) by (rewrite Hlen; exact Ha).
  rewrite (slice_suffix (randperm n) a n Hlen Ha). reflexivity.
Qed.

(** C7: the split cell on a dataset of [n] records (ratio 0.8, the one
    the notebook uses) returns two subsets of the dataset whose index
    lists have [floor(0.8 n)] and [n - floor(0.8 n)] entries, share no
    index and together hold every index of [0 .. n-1] once; for
    [n = 150] the sizes are 120 and 30.  The generator may draw any
    permutation; [n] stays below [2^50], as any frame in memory does. *)
Theorem train_test_split_partitions
    (randperm : Z -> list Z) (ds : CustomDataset) (n : Z) :
  size ds = Ok n ->
  n < 2 ^ 50 ->
  Permutation (randperm n) (arange n) ->
  exists train test,
    train_test_split randperm ds = Ok (train, test) /\
    dataset train = ds /\ dataset test = ds /\
    Z.of_nat (List.length (indices train)) = 4 * n / 5 /\
    Z.of_nat (List.length (indices test)) = n - 4 * n / 5 /\
    (forall i, In i (indices train) -> ~ In i (indices test)) /\
    (forall i, 0 <= i < n <-> In i (indices train) \/ In i (indices test)) /\
    NoDup (indices train ++ indices test) /\
    (n = 150 ->
     List.length (indices train) = 120%nat /\ List.length (indices test) = 30%nat).
Proof.
  intros Hsize Hn Hperm.
  assert (Hn0 : 0 <= n).
  { rewrite size_is_targets_len in Hsize. injection Hsize as <-. apply len_nonneg. }
  set (a := 4 * n / 5).
  assert (Ha : 0 <= a <= n) by (unfold a; Z.div_mod_to_equations; lia).
  assert (Hlen : Z.of_nat (List.length (randperm n)) = n).
  { rewrite (Permutation_length Hperm), arange_length. lia. }
  exists (Build_Subset ds (firstn (Z.to_nat a) (randperm n))),
         (Build_Subset ds (skipn (Z.to_nat a) (randperm n))).
  assert (Hnd : NoDup (firstn (Z.to_nat a) (randperm n) ++ skipn (Z.to_nat a) (randperm n))).
  { rewrite firstn_skipn. apply (Permutation_NoDup (Permutation_sym Hperm)).
    apply arange_NoDup. }
  assert (L1 : Z.of_nat (List.length (firstn (Z.to_nat a) (randperm n))) = a)
    by (rewrite length_firstn; lia).
  assert (L2 : Z.of_nat (List.length (skipn (Z.to_nat a) (randperm n))) = n - a)
    by (rewrite length_skipn; lia).
  simpl.
  split.
  { unfold train_test_split. rewrite Hsize. unfold rbind at 1.
    rewrite train_size_floor by lia. unfold rbind at 1. fold a.
    rewrite (random_split_two randperm ds n a Hsize Ha eq_refl Hlen). reflexivity. }
  do 2 (split; [reflexivity|]).
  split; [exact L1|]. split; [exact L2|].
  split; [apply NoDup_app_disjoint; exact Hnd|].
  split.
  { intros i. rewrite <- in_app_iff, firstn_skipn, <- arange_In. split.
    - apply (Permutation_in _ (Permutation_sym Hperm)).
    - apply (Permutation_in _ Hperm). }
  split; [exact Hnd|].
  intros ->. change (4 * 150 / 5) with 120 in *. lia.
Qed.

Lemma train_test_split_partitions_witness :
  exists train test,
    train_test_split backwards (paired targets_150 data_150) = Ok (train, test) /\
    dataset train = paired targets_150 data_150 /\
    dataset test = paired targets_150 data_150 /\
    Z.of_nat (List.length (indices train)) = 4 * 150 / 5 /\
    Z.of_nat (List.length (indices test)) = 150 - 4 * 150 / 5 /\
    (forall i, In i (indices train) -> ~ In i (indices test)) /\
    (forall i, 0 <= i < 150 <-> In i (indices train) \/ In i (indices test)) /\
    NoDup (indices train ++ indices test) /\
    (150 = 150 ->
     List.length (indices train) = 120%nat /\ List.length (indices test) = 30%nat).
Proof.
  apply (train_test_split_partitions backwards (paired targets_150 data_150) 150).
  - reflexivity.
  - reflexivity.
  - unfold backwards. apply Permutation_sym, Permutation_rev.
Defined.

(** The 0.8 of the notebook on the Iris size, evaluated. *)
Lemma train_size_150 : train_size 150 = Ok 120.
Proof. vm_compute. reflexivity. Qed.

End Split.

(** * More of the notebook *)

(** ** The wrapper: what it ignores, when it fails, when it answers *)

Module MoreAccess.
Import Np Pd Notebook Examples.

(** X1: [transform] and [target_transform] are stored and never applied:
    two datasets over the same frames answer [get] and [size] alike,
    whatever transforms they were built with. *)
Theorem get_ignores_transforms
    (float_of_str : string -> option float64) (t d : DataFrame)
    (tr tr' : option (ndarray -> ndarray)) (ttr ttr' : option (scalar -> scalar))
    (idx : Z) :
  get float_of_str (Build_CustomDataset t d tr ttr) idx
    = get float_of_str (Build_CustomDataset t d tr' ttr') idx /\
  size (Build_CustomDataset t d tr ttr) = size (Build_CustomDataset t d tr' ttr').
Proof. split; [rewrite !get_steps|]; reflexivity. Qed.

(** X2: construction raises exactly what reading raises: the exception
    of the targets file if that cannot be read, else that of the data
    file (which is read only after the targets). *)
Theorem init_raises_iff
    (fs : files) (targets_path data_path : string)
    (tr : option (ndarray -> ndarray)) (ttr : option (scalar -> scalar))
    (e : exn) :
  __init__ fs targets_path data_path tr ttr = Raise e <->
  read_csv fs targets_path = Raise e \/
  (exists t, read_csv fs targets_path = Ok t /\ read_csv fs data_path = Raise e).
Proof.
  unfold __init__.
  destruct (read_csv fs targets_path) as [t|e1]; simpl.
  - destruct (read_csv fs data_path) as [d|e2]; simpl.
    + split; [discriminate|]. intros [H | (t' & _ & H)]; discriminate.
    + split.
      * intros [= <-]. right. eauto.
      * intros [H | (t' & _ & H)]; [discriminate | congruence].
  - split.
    + intros [= <-]. left. reflexivity.
    + intros [H | (t' & H & _)]; [congruence | discriminate].
Qed.



(** X4: over a label table of other than one column, [get] returns no
    record at any index: it raises [IndexError], [ValueError] or
    [OverflowError]. *)
Theorem get_needs_one_label_column
    (float_of_str : string -> option float64) (ds : CustomDataset) (idx : Z) :
  List.length (columns (targets_file ds)) <> 1%nat ->
  (forall r, get float_of_str ds idx <> Ok r) /\
  (get float_of_str ds idx = Raise IndexError \/
   get float_of_str ds idx = Raise ValueError \/
   get float_of_str ds idx = Raise OverflowError).
Proof.
  intros Hcols.
  assert (Hno : forall r, get float_of_str ds idx <> Ok r).
  { intros [x y] Hget. rewrite get_steps in Hget.
    destruct (iloc (data_dir ds) idx) as [row|]; simpl in Hget; [|discriminate].
    destruct (to_numpy_float32 float_of_str (row_dtype (data_dir ds)) row);
      simpl in Hget; [|discriminate].
    destruct (iloc (targets_file ds) idx) as [lab|] eqn:Hlab; simpl in Hget;
      [|discriminate].
    apply iloc_width in Hlab.
    destruct lab as [|v [|w lab]]; simpl in Hget; try discriminate.
    simpl in Hlab. congruence. }
  split; [exact Hno|].
  destruct (get float_of_str ds idx) as [r|e] eqn:Hget.
  - exfalso. exact (Hno r eq_refl).
  - destruct (get_raises _ _ _ _ Hget) as [-> | [_ [-> | ->]]]; auto.
Qed.

Lemma get_needs_one_label_column_witness :
  (forall r, get no_text (paired two_label_columns two_rows) 0 <> Ok r) /\
  (get no_text (paired two_label_columns two_rows) 0 = Raise IndexError \/
   get no_text (paired two_label_columns two_rows) 0 = Raise ValueError \/
   get no_text (paired two_label_columns two_rows) 0 = Raise OverflowError).
Proof.
  apply (get_needs_one_label_column no_text (paired two_label_columns two_rows) 0).
  simpl. discriminate.
Defined.

(** X5: on a dataset whose tables have [n] rows each, one label column,
    and feature rows that all convert, [get(i)] returns a record exactly
    for [i] in [-n, n). *)
Theorem get_returns_iff_in_range
    (float_of_str : string -> option float64) (ds : CustomDataset) (n i : Z) :
  len (targets_file ds) = n ->
  len (data_dir ds) = n ->
  List.length (columns (targets_file ds)) = 1%nat ->
  (forall row, In row (rows (data_dir ds)) ->
               exists x, to_numpy_float32 float_of_str (row_dtype (data_dir ds)) row
                         = Ok x) ->
  (exists r, get float_of_str ds i = Ok r) <-> - n <= i < n.
Proof.
  intros Hn Hd Hcol Hconv. split.
  - intros [r Hr]. rewrite get_steps in Hr.
    destruct (iloc (data_dir ds) i) as [row|] eqn:Hrow; simpl in Hr; [|discriminate].
    rewrite <- Hd. apply iloc_ok_iff. eauto.
  - intros Hi. rewrite get_steps.
    destruct (iloc (data_dir ds) i) as [row|] eqn:Hrow.
    2:{ rewrite iloc_in_bounds in Hrow by lia. discriminate. }
    simpl.
    destruct (Hconv row) as [x Hx].
    { rewrite iloc_in_bounds in Hrow by lia. injection Hrow as <-.
      apply nth_In. unfold len in *.
      destruct (i <? 0) eqn:E; [apply Z.ltb_lt in E | apply Z.ltb_ge in E]; lia. }
    rewrite Hx. simpl.
    destruct (iloc (targets_file ds) i) as [lab|] eqn:Hlab.
    2:{ rewrite iloc_in_bounds in Hlab by lia. discriminate. }
    simpl. destruct (item_single lab) as [y Hy].
    { rewrite (iloc_width _ _ _ Hlab). exact Hcol. }
    rewrite Hy. simpl. eauto.
Qed.

Lemma get_returns_iff_in_range_witness :
  (exists r, get no_text (paired two_labels two_rows) (-2) = Ok r) <-> - 2 <= -2 < 2.
Proof.
  apply (get_returns_iff_in_range no_text (paired two_labels two_rows) 2 (-2)).
  - reflexivity.
  - reflexivity.
  - reflexivity.
  - intros row [<- | [<- | []]]; eexists; reflexivity.
Defined.

End MoreAccess.

(** ** [random_split] with any lengths *)

Module MoreSplit.
Import Np Pd Notebook Torch SplitCell Examples Rounding Split.

(** [l[a:b]] inside the list: [b - a] items after the first [a]. *)
Lemma slice_inside {A} (l : list A) (a b : Z) :
  0 <= a <= b -> b <= Z.of_nat (List.length l) ->
  slice l a b = firstn (Z.to_nat (b - a)) (skipn (Z.to_nat a) l).
Proof.
  intros Hab Hb. unfold slice. rewrite !slice_bound_inside by lia. reflexivity.
Qed.

Lemma slice_inside_length {A} (l : list A) (a b : Z) :
  0 <= a <= b -> b <= Z.of_nat (List.length l) ->
  Z.of_nat (List.length (slice l a b)) = b - a.
Proof.
  intros Hab Hb. rewrite slice_inside by assumption.
  rewrite length_firstn, length_skipn. lia.
Qed.

Lemma firstn_plus {A} (m k : nat) (l : list A) :
  firstn (m + k) l = firstn m l ++ firstn k (skipn m l).
Proof.
  revert l. induction m as [|m IH]; intros l; [reflexivity|].
  destruct l as [|a l]; simpl; [rewrite firstn_nil; reflexivity|].
  f_equal. apply IH.
Qed.

Lemma skipn_plus {A} (m k : nat) (l : list A) :
  skipn k (skipn m l) = skipn (m + k) l.
Proof.
  revert l. induction m as [|m IH]; intros l; [reflexivity|].
  destruct l as [|a l]; simpl; [apply skipn_nil | apply IH].
Qed.

(** Two slices that meet are one slice. *)
Lemma slice_app {A} (l : list A) (a b c : Z) :
  0 <= a <= b -> b <= c -> c <= Z.of_nat (List.length l) ->
  slice l a b ++ slice l b c = slice l a c.
Proof.
  intros Hab Hbc Hc. rewrite !slice_inside by lia.
  replace (Z.to_nat (c - a)) with (Z.to_nat (b - a) + Z.to_nat (c - b))%nat by lia.
  rewrite firstn_plus. f_equal.
  rewrite skipn_plus. do 2 f_equal. lia.
Qed.

Lemma sum_nonneg (lengths : list Z) :
  Forall (fun x => 0 <= x) lengths -> 0 <= Torch.sum lengths.
Proof.
  induction 1 as [|x l Hx _ IH]; unfold Torch.sum in *; simpl; lia.
Qed.

(** The subsets cut from [offset] on: their sizes are the lengths, and
    end to end they are the slice from [offset] over the sum. *)
Lemma subsets_cut (ds : CustomDataset) (idxs : list Z) (lengths : list Z) :
  Forall (fun x => 0 <= x) lengths ->
  forall offset,
    0 <= offset ->
    offset + Torch.sum lengths <= Z.of_nat (List.length idxs) ->
    map (fun p => Z.of_nat (List.length (indices p))) (subsets ds idxs offset lengths)
      = lengths /\
    List.concat (map indices (subsets ds idxs offset lengths))
      = slice idxs offset (offset + Torch.sum lengths) /\
    Forall (fun p => dataset p = ds) (subsets ds idxs offset lengths).
Proof.
  induction 1 as [|x l Hx Hl IH]; intros offset Ho Hsum.
  - simpl. repeat split; [|constructor].
    change (Torch.sum []) with 0 in *. rewrite Z.add_0_r in *.
    rewrite slice_inside by lia. rewrite Z.sub_diag. reflexivity.
  - pose proof (sum_nonneg l Hl) as Hs.
    assert (Hsx : Torch.sum (x :: l) = x + Torch.sum l) by reflexivity.
    rewrite Hsx in *.
    destruct (IH (offset + x) ltac:(lia) ltac:(lia)) as (IH1 & IH2 & IH3).
    simpl. replace (offset + x - x) with offset by lia.
    repeat split.
    + rewrite IH1. f_equal. rewrite slice_inside_length by lia. lia.
    + rewrite IH2. rewrite slice_app by lia. f_equal. lia.
    + constructor; [reflexivity | exact IH3].
Qed.

(** Integer lengths that are not negative and sum to the size of the
    dataset are taken as they are. *)
Lemma resolve_counts (n : Z) (lengths : list Z) :
  Forall (fun x => 0 <= x) lengths -> Torch.sum lengths = n ->
  resolve_lengths n lengths = Ok lengths.
Proof.
  intros Hnn Hsum. unfold resolve_lengths.
  destruct (Torch.sum lengths =? 1) eqn:E; [|reflexivity].
  apply Z.eqb_eq in E. assert (Hn : n = 1) by lia.
  assert (Hall : forallb (fun f => (0 <=? f) && (f <=? 1)) lengths = true).
  { clear Hsum Hn. revert E. induction Hnn as [|x l Hx Hl IH]; intros E; [reflexivity|].
    pose proof (sum_nonneg l Hl) as Hs.
    change (Torch.sum (x :: l)) with (x + Torch.sum l) in E. simpl.
    destruct (Z.eq_dec x 0) as [-> | Hx0].
    - simpl. apply IH. lia.
    - assert (x = 1) by lia. subst x. simpl.
      assert (E0 : Torch.sum l = 0) by lia. clear IH E Hs.
      induction Hl as [|y l Hy Hl IH]; [reflexivity|].
      pose proof (sum_nonneg l Hl).
      change (Torch.sum (y :: l)) with (y + Torch.sum l) in E0.
      assert (y = 0) by lia. subst y. simpl. apply IH. lia. }
  rewrite Hall. f_equal.
  rewrite <- (map_id lengths) at 2. apply map_ext. intros a. subst n. lia.
Qed.

(** X6: [random_split] with any number of lengths, none negative, that
    sum to the size of the dataset: one subset per length, of that many
    indices, all views of the dataset, and end to end their indices are
    the order the generator drew. *)
Theorem random_split_cuts_the_permutation
    (randperm : Z -> list Z) (ds : CustomDataset) (n : Z) (lengths : list Z) :
  size ds = Ok n ->
  Forall (fun x => 0 <= x) lengths ->
  Torch.sum lengths = n ->
  Z.of_nat (List.length (randperm n)) = n ->
  exists parts,
    random_split randperm ds lengths = Ok parts /\
    map (fun p => Z.of_nat (List.length (indices p))) parts = lengths /\
    List.concat (map indices parts) = randperm n /\
    Forall (fun p => dataset p = ds) parts.
Proof.
  intros Hsize Hnn Hsum Hlen.
  unfold random_split. rewrite Hsize. simpl.
  rewrite (resolve_counts n lengths Hnn Hsum). simpl.
  rewrite Hsum, Z.eqb_refl. eexists. split; [reflexivity|].
  pose proof (sum_nonneg lengths Hnn).
  destruct (subsets_cut ds (randperm n) lengths Hnn 0 ltac:(lia) ltac:(lia))
    as (H1 & H2 & H3).
  repeat split; try assumption.
  rewrite H2, Z.add_0_l, Hsum. rewrite <- Hlen at 2.
  rewrite slice_inside by lia.
  rewrite Z.sub_0_r. simpl skipn. rewrite Nat2Z.id. apply firstn_all.
Qed.

Lemma random_split_cuts_the_permutation_witness :
  exists parts,
    random_split backwards (paired targets_150 data_150) [100; 30; 20] = Ok parts /\
    map (fun p => Z.of_nat (List.length (indices p))) parts = [100; 30; 20] /\
    List.concat (map indices parts) = backwards 150 /\
    Forall (fun p => dataset p = paired targets_150 data_150) parts.
Proof.
  apply (random_split_cuts_the_permutation backwards (paired targets_150 data_150)
           150 [100; 30; 20]).
  - reflexivity.
  - repeat constructor; discriminate.
  - reflexivity.
  - reflexivity.
Defined.

End MoreSplit.

(** ** The subsets of the split, in use *)

Module SplitUse.
Import Np Pd Notebook Torch SplitCell Loader Examples Rounding Split.

(** The two subsets the split cell returns, spelled out. *)
Lemma train_test_split_value
    (randperm : Z -> list Z) (ds : CustomDataset) (n : Z) :
  size ds = Ok n -> n < 2 ^ 50 ->
  Z.of_nat (List.length (randperm n)) = n ->
  train_test_split randperm ds
    = Ok (Build_Subset ds (firstn (Z.to_nat (4 * n / 5)) (randperm n)),
          Build_Subset ds (skipn (Z.to_nat (4 * n / 5)) (randperm n))).
Proof.
  intros Hsize Hn Hlen.
  assert (Hn0 : 0 <= n).
  { rewrite size_is_targets_len in Hsize. injection Hsize as <-. apply len_nonneg. }
  assert (Ha : 0 <= 4 * n / 5 <= n) by (Z.div_mod_to_equations; lia).
  unfold train_test_split. rewrite Hsize. unfold rbind at 1.
  rewrite train_size_floor by lia. unfold rbind at 1.
  rewrite (random_split_two randperm ds n _ Hsize Ha eq_refl Hlen). reflexivity.
Qed.

(** X7: the test subset of the split cell holds a fifth of the records,
    rounded up: it is never empty on a dataset that is not, and the
    train subset is empty exactly on a dataset of at most one record. *)
Theorem test_share_is_a_fifth_rounded_up
    (randperm : Z -> list Z) (ds : CustomDataset) (n : Z) (train test : Subset) :
  size ds = Ok n -> n < 2 ^ 50 ->
  Z.of_nat (List.length (randperm n)) = n ->
  train_test_split randperm ds = Ok (train, test) ->
  subset_len test = (n + 4) / 5 /\
  (1 <= n -> 1 <= subset_len test) /\
  (subset_len train = 0 <-> n <= 1).
Proof.
  intros Hsize Hn Hlen Hsplit.
  assert (Hn0 : 0 <= n).
  { rewrite size_is_targets_len in Hsize. injection Hsize as <-. apply len_nonneg. }
  pose proof (train_test_split_value randperm ds n Hsize Hn Hlen) as Hval.
  assert (Ha : 0 <= 4 * n / 5 <= n) by (Z.div_mod_to_equations; lia).
  assert (Hq : n - 4 * n / 5 = (n + 4) / 5) by (Z.div_mod_to_equations; lia).
  assert (H0 : 4 * n / 5 = 0 <-> n <= 1) by (Z.div_mod_to_equations; lia).
  assert (H1 : 1 <= n -> 1 <= (n + 4) / 5) by (Z.div_mod_to_equations; lia).
  remember (4 * n / 5) as a eqn:Ea. clear Ea.
  rewrite Hval in Hsplit. injection Hsplit as <- <-.
  unfold subset_len. cbn [indices].
  rewrite length_firstn, length_skipn.
  split; [lia|]. split; [lia|]. lia.
Qed.

Lemma list_getitem_ok_iff {A} (l : list A) (p : Z) :
  (exists a, list_getitem l p = Ok a) <->
  - Z.of_nat (List.length l) <= p < Z.of_nat (List.length l).
Proof.
  unfold list_getitem.
  destruct (Z.of_nat (List.length l) <=? p) eqn:E1; simpl.
  { apply Z.leb_le in E1. split; [intros [a Ha]; discriminate | lia]. }
  destruct (p <? - Z.of_nat (List.length l)) eqn:E2; simpl.
  { apply Z.ltb_lt in E2. split; [intros [a Ha]; discriminate | lia]. }
  apply Z.leb_gt in E1. apply Z.ltb_ge in E2.
  split; [lia|]. intros _.
  destruct (nth_error l _) as [a|] eqn:En; [eauto|].
  apply nth_error_None in En.
  destruct (p <? 0) eqn:E0; [apply Z.ltb_lt in E0 | apply Z.ltb_ge in E0]; lia.
Qed.

Lemma list_getitem_In {A} (l : list A) (p : Z) (a : A) :
  list_getitem l p = Ok a -> In a l.
Proof.
  unfold list_getitem.
  destruct ((Z.of_nat (List.length l) <=? p) || (p <? - Z.of_nat (List.length l)));
    [discriminate|].
  destruct (nth_error l _) as [b|] eqn:En; [|discriminate].
  intros [= <-]. eapply nth_error_In. eassumption.
Qed.

(** A subset whose indices the dataset answers gives a record exactly at
    its own positions, counted from either end. *)
Lemma subset_getitem_ok_iff
    (float_of_str : string -> option float64) (s : Subset) (p : Z) :
  (forall i, In i (indices s) -> exists r, get float_of_str (dataset s) i = Ok r) ->
  (exists r, subset_getitem float_of_str s p = Ok r) <->
  - subset_len s <= p < subset_len s.
Proof.
  intros Hall. unfold subset_getitem, subset_len.
  rewrite <- list_getitem_ok_iff. split.
  - intros [r Hr]. destruct (list_getitem (indices s) p) as [i|]; [eauto | discriminate].
  - intros [i Hi]. rewrite Hi. simpl. apply Hall. eapply list_getitem_In. eassumption.
Qed.

(** X8: on a dataset that answers at every index of [0 .. n-1], each
    subset of the split returns a record exactly at its own positions
    (from either end), and that record is the dataset's at one of the
    subset's indices. *)
Theorem split_subsets_answer_at_their_positions
    (randperm : Z -> list Z) (float_of_str : string -> option float64)
    (ds : CustomDataset) (n : Z) (train test : Subset) :
  size ds = Ok n -> n < 2 ^ 50 ->
  Permutation (randperm n) (arange n) ->
  (forall i, 0 <= i < n -> exists r, get float_of_str ds i = Ok r) ->
  train_test_split randperm ds = Ok (train, test) ->
  forall s, s = train \/ s = test ->
    forall p,
      ((exists r, subset_getitem float_of_str s p = Ok r) <->
       - subset_len s <= p < subset_len s) /\
      (forall r, subset_getitem float_of_str s p = Ok r ->
                 exists i, 0 <= i < n /\ In i (indices s) /\
                           get float_of_str ds i = Ok r).
Proof.
  intros Hsize Hn Hperm Hget Hsplit.
  assert (Hlen : Z.of_nat (List.length (randperm n)) = n).
  { assert (0 <= n).
    { rewrite size_is_targets_len in Hsize. injection Hsize as <-. apply len_nonneg. }
    rewrite (Permutation_length Hperm), arange_length. lia. }
  rewrite (train_test_split_value randperm ds n Hsize Hn Hlen) in Hsplit.
  injection Hsplit as <- <-.
  set (a := Z.to_nat (4 * n / 5)).
  assert (Hrange : forall i, In i (randperm n) -> 0 <= i < n).
  { intros i Hi. apply arange_In. apply (Permutation_in _ Hperm). exact Hi. }
  intros s Hs p.
  assert (Hds : dataset s = ds) by (destruct Hs as [-> | ->]; reflexivity).
  assert (Hin : forall i, In i (indices s) -> 0 <= i < n).
  { intros i Hi. apply Hrange.
    rewrite <- (firstn_skipn a). apply in_or_app.
    destruct Hs as [-> | ->]; simpl in Hi; auto. }
  split.
  - apply subset_getitem_ok_iff. intros i Hi. rewrite Hds. apply Hget, Hin, Hi.
  - intros r Hr. unfold subset_getitem in Hr.
    destruct (list_getitem (indices s) p) as [i|] eqn:Hi; simpl in Hr; [|discriminate].
    apply list_getitem_In in Hi. exists i. rewrite <- Hds. auto.
Qed.

Lemma iris_answers (i : Z) :
  0 <= i < 150 -> exists r, get no_text (paired targets_150 data_150) i = Ok r.
Proof.
  intros Hi.
  destruct (Access.get_returns_on_paired_tables no_text
              (paired targets_150 data_150) i) as (x & y & Hxy).
  - reflexivity.
  - reflexivity.
  - intros row [<- | Hrow]; [eexists; reflexivity|].
    apply repeat_spec in Hrow. subst row. eexists; reflexivity.
  - exact Hi.
  - eauto.
Qed.

Lemma test_share_is_a_fifth_rounded_up_witness :
  subset_len (Build_Subset (paired targets_150 data_150)
                (skipn 120 (backwards 150))) = (150 + 4) / 5 /\
  (1 <= 150 ->
   1 <= subset_len (Build_Subset (paired targets_150 data_150)
                      (skipn 120 (backwards 150)))) /\
  (subset_len (Build_Subset (paired targets_150 data_150)
                 (firstn 120 (backwards 150))) = 0 <-> 150 <= 1).
Proof.
  apply (test_share_is_a_fifth_rounded_up backwards (paired targets_150 data_150) 150).
  - reflexivity.
  - reflexivity.
  - reflexivity.
  - vm_compute. reflexivity.
Defined.

Lemma split_subsets_answer_at_their_positions_witness :
  ((exists r, subset_getitem no_text
                (Build_Subset (paired targets_150 data_150)
                   (skipn 120 (backwards 150))) (-1) = Ok r) <->
   - subset_len (Build_Subset (paired targets_150 data_150)
                   (skipn 120 (backwards 150))) <= -1
     < subset_len (Build_Subset (paired targets_150 data_150)
                     (skipn 120 (backwards 150)))) /\
  (forall r,
      subset_getitem no_text
        (Build_Subset (paired targets_150 data_150)
           (skipn 120 (backwards 150))) (-1) = Ok r ->
      exists i, 0 <= i < 150 /\
                In i (indices (Build_Subset (paired targets_150 data_150)
                                 (skipn 120 (backwards 150)))) /\
                get no_text (paired targets_150 data_150) i = Ok r).
Proof.
  apply (split_subsets_answer_at_their_positions backwards no_text
           (paired targets_150 data_150) 150
           (Build_Subset (paired targets_150 data_150) (firstn 120 (backwards 150)))
           (Build_Subset (paired targets_150 data_150) (skipn 120 (backwards 150)))).
  - reflexivity.
  - reflexivity.
  - unfold backwards. apply Permutation_sym, Permutation_rev.
  - exact iris_answers.
  - vm_compute. reflexivity.
  - right. reflexivity.
Defined.

End SplitUse.

(** ** Batches *)

Module Batching.
Import Np Pd Notebook Torch Loader Examples.

(** What [batches_from] yields from a batch under way: the indices in
    their order; batches of 1 to [batch_size] indices, all full but the
    last; as many batches as [__len__] counts. *)
Lemma batches_from_spec (batch_size : Z) (sampler : list Z) :
  0 < batch_size ->
  forall batch,
    Z.of_nat (List.length batch) < batch_size ->
    List.concat (batches_from batch_size batch sampler) = batch ++ sampler /\
    Forall (fun b => 1 <= Z.of_nat (List.length b) <= batch_size)
           (batches_from batch_size batch sampler) /\
    Forall (fun b => Z.of_nat (List.length b) = batch_size)
           (removelast (batches_from batch_size batch sampler)) /\
    Z.of_nat (List.length (batches_from batch_size batch sampler))
      = (Z.of_nat (List.length batch) + Z.of_nat (List.length sampler)
         + batch_size - 1) / batch_size.
Proof.
  intros Hbs. induction sampler as [|idx rest IH]; intros batch Hb.
  - simpl batches_from. destruct batch as [|b0 batch].
    + split; [reflexivity|]. split; [constructor|]. split; [constructor|].
      simpl. symmetry. apply Z.div_small. lia.
    + split; [simpl; rewrite ?app_nil_r; reflexivity|].
      split; [constructor; [simpl List.length in *; lia | constructor]|].
      split; [constructor|].
      simpl List.length in *.
      apply Z.div_unique with (r := Z.of_nat (S (List.length batch)) - 1); lia.
  - simpl batches_from.
    assert (Hlen : Z.of_nat (List.length (batch ++ [idx]))
                   = Z.of_nat (List.length batch) + 1)
      by (rewrite length_app; simpl; lia).
    destruct (Z.of_nat (List.length (batch ++ [idx])) =? batch_size) eqn:E.
    + apply Z.eqb_eq in E.
      destruct (IH [] ltac:(simpl; lia)) as (I1 & I2 & I3 & I4).
      split; [simpl; rewrite I1, <- app_assoc; reflexivity|].
      split; [constructor; [lia | exact I2]|].
      split.
      { simpl removelast.
        destruct (batches_from batch_size [] rest) eqn:Er; constructor; assumption. }
      assert (Hdiv : (Z.of_nat (List.length batch) + Z.of_nat (List.length (idx :: rest))
                      + batch_size - 1) / batch_size
                     = (Z.of_nat (List.length (@nil Z)) + Z.of_nat (List.length rest)
                        + batch_size - 1) / batch_size + 1).
      { rewrite <- Z.div_add by lia. f_equal. simpl List.length. lia. }
      rewrite Hdiv, <- I4. simpl List.length. lia.
    + apply Z.eqb_neq in E.
      destruct (IH (batch ++ [idx]) ltac:(lia)) as (I1 & I2 & I3 & I4).
      split; [rewrite I1, <- app_assoc; reflexivity|].
      split; [exact I2|]. split; [exact I3|].
      rewrite I4, Hlen. simpl List.length. f_equal. lia.
Qed.

(** X9: for a positive [batch_size], the batch sampler yields the
    sampled indices in their order, in batches of 1 to [batch_size]
    indices, every batch but the last full, and as many batches as its
    [__len__] counts. *)
Theorem BatchSampler_batches (sampler : list Z) (batch_size : Z) :
  0 < batch_size ->
  exists batches,
    BatchSampler sampler batch_size = Ok batches /\
    List.concat batches = sampler /\
    Forall (fun b => 1 <= Z.of_nat (List.length b) <= batch_size) batches /\
    Forall (fun b => Z.of_nat (List.length b) = batch_size) (removelast batches) /\
    Z.of_nat (List.length batches)
      = BatchSampler_len (Z.of_nat (List.length sampler)) batch_size.
Proof.
  intros Hbs. unfold BatchSampler.
  destruct (batch_size <=? 0) eqn:E; [apply Z.leb_le in E; lia|].
  eexists. split; [reflexivity|].
  destruct (batches_from_spec batch_size sampler Hbs [] ltac:(simpl; lia))
    as (H1 & H2 & H3 & H4).
  split; [exact H1|]. split; [exact H2|]. split; [exact H3|].
  rewrite H4. unfold BatchSampler_len. simpl List.length. f_equal.
Qed.

Lemma BatchSampler_batches_witness :
  exists batches,
    BatchSampler (backwards 120) 32 = Ok batches /\
    List.concat batches = backwards 120 /\
    Forall (fun b => 1 <= Z.of_nat (List.length b) <= 32) batches /\
    Forall (fun b => Z.of_nat (List.length b) = 32) (removelast batches) /\
    Z.of_nat (List.length batches)
      = BatchSampler_len (Z.of_nat (List.length (backwards 120))) 32.
Proof.
  apply (BatchSampler_batches (backwards 120) 32). reflexivity.
Defined.

(** The loaders of the notebook: 120 training records in batches of 32,
    32, 32 and 24, and the 30 test records in one batch. *)
Lemma notebook_batch_sizes :
  (exists bs, BatchSampler (backwards 120) 32 = Ok bs /\
              map (@List.length Z) bs = [32; 32; 32; 24]%nat) /\
  (exists bs, BatchSampler (backwards 30) 32 = Ok bs /\
              map (@List.length Z) bs = [30]%nat).
Proof. split; eexists; split; reflexivity. Qed.

End Batching.

(** ** The label encoder *)

Module Encoding.
Import Sklearn.

Lemma ascii_compare_lt_trans (a b c : ascii) :
  Ascii.compare a b = Lt -> Ascii.compare b c = Lt -> Ascii.compare a c = Lt.
Proof.
  unfold Ascii.compare. rewrite !N.compare_lt_iff. apply N.lt_trans.
Qed.

Lemma ascii_compare_refl (a : ascii) : Ascii.compare a a = Eq.
Proof. unfold Ascii.compare. apply N.compare_refl. Qed.

Lemma str_lt_trans (a b c : string) : str_lt a b -> str_lt b c -> str_lt a c.
Proof.
  unfold str_lt. revert b c.
  induction a as [|x a IH]; intros [|y b] [|z c]; simpl; try discriminate; auto.
  destruct (Ascii.compare x y) eqn:Exy; try discriminate.
  - apply Ascii.compare_eq_iff in Exy. subst y.
    destruct (Ascii.compare x z) eqn:Exz; try discriminate; auto.
    apply IH.
  - intros _. destruct (Ascii.compare y z) eqn:Eyz; try discriminate.
    + apply Ascii.compare_eq_iff in Eyz. subst z. rewrite Exy. reflexivity.
    + rewrite (ascii_compare_lt_trans _ _ _ Exy Eyz). reflexivity.
Qed.

Lemma str_lt_irrefl (a : string) : ~ str_lt a a.
Proof.
  unfold str_lt. induction a as [|x a IH]; simpl; [discriminate|].
  rewrite ascii_compare_refl. exact IH.
Qed.

Lemma compare_gt_lt (a b : string) : String.compare a b = Gt -> str_lt b a.
Proof.
  unfold str_lt. intros H. rewrite String.compare_antisym, H. reflexivity.
Qed.

Lemma add_class_In (s x : string) (classes : list string) :
  In x (add_class s classes) <-> x = s \/ In x classes.
Proof.
  induction classes as [|c cs IH]; simpl.
  - intuition.
  - destruct (String.compare s c) eqn:E; simpl.
    + apply String.compare_eq_iff in E. subst c. intuition.
    + intuition.
    + rewrite IH. intuition.
Qed.

Lemma add_class_sorted (s : string) (classes : list string) :
  StronglySorted str_lt classes -> StronglySorted str_lt (add_class s classes).
Proof.
  induction 1 as [|c cs Hs IH Hall]; simpl.
  - constructor; constructor.
  - destruct (String.compare s c) eqn:E.
    + constructor; assumption.
    + constructor; [constructor; assumption|].
      constructor; [exact E|].
      eapply Forall_impl; [|exact Hall]. intros a Ha. eapply str_lt_trans; eassumption.
    + constructor; [exact IH|].
      apply Forall_forall. intros a Ha. apply add_class_In in Ha.
      destruct Ha as [-> | Ha]; [apply compare_gt_lt; exact E|].
      rewrite Forall_forall in Hall. apply Hall. exact Ha.
Qed.

Lemma unique_sorted_In (y : list string) (x : string) :
  In x (unique_sorted y) <-> In x y.
Proof.
  unfold unique_sorted. induction y as [|a y IH]; simpl; [tauto|].
  rewrite add_class_In, IH. intuition.
Qed.

Lemma unique_sorted_sorted (y : list string) :
  StronglySorted str_lt (unique_sorted y).
Proof.
  unfold unique_sorted. induction y as [|a y IH]; simpl; [constructor|].
  apply add_class_sorted. exact IH.
Qed.

Lemma position_cons (v c : string) (cs : list string) :
  position v (c :: cs) = if String.eqb v c then 0 else 1 + position v cs.
Proof. reflexivity. Qed.

Lemma position_nonneg (v : string) (l : list string) : 0 <= position v l.
Proof.
  induction l as [|c cs IH]; [simpl; lia|].
  rewrite position_cons. destruct (String.eqb v c); lia.
Qed.

(** A value that is among the classes is found, at its own place. *)
Lemma position_found (v : string) (l : list string) :
  In v l ->
  position v l < Z.of_nat (List.length l) /\
  nth (Z.to_nat (position v l)) l ""%string = v.
Proof.
  induction l as [|c cs IH]; [contradiction|].
  intros Hin. rewrite position_cons. cbn [List.length].
  destruct (String.eqb v c) eqn:E.
  - apply String.eqb_eq in E. subst c. split; [lia | reflexivity].
  - apply String.eqb_neq in E.
    destruct Hin as [-> | Hin]; [congruence|].
    destruct (IH Hin) as [H1 H2]. pose proof (position_nonneg v cs).
    split; [lia|].
    replace (Z.to_nat (1 + position v cs)) with (S (Z.to_nat (position v cs))) by lia.
    exact H2.
Qed.

(** Among increasing classes, places go as the values do. *)
Lemma position_order (l : list string) :
  StronglySorted str_lt l ->
  forall a b, In a l -> In b l ->
    (str_lt a b <-> position a l < position b l).
Proof.
  induction 1 as [|c cs Hs IH Hall]; intros a b Ha Hb; [contradiction|].
  rewrite Forall_forall in Hall. rewrite !position_cons.
  destruct (String.eqb a c) eqn:Ea; destruct (String.eqb b c) eqn:Eb.
  - apply String.eqb_eq in Ea, Eb. subst. split; [|lia].
    intros Hlt. exfalso. eapply str_lt_irrefl. exact Hlt.
  - apply String.eqb_eq in Ea. apply String.eqb_neq in Eb. subst a.
    destruct Hb as [-> | Hb]; [congruence|].
    pose proof (position_nonneg b cs). split; [lia|]. intros _. apply Hall. exact Hb.
  - apply String.eqb_neq in Ea. apply String.eqb_eq in Eb. subst b.
    destruct Ha as [-> | Ha]; [congruence|].
    pose proof (position_nonneg a cs). split; [|lia].
    intros Hlt. exfalso. apply (str_lt_irrefl a).
    eapply str_lt_trans; [exact Hlt|]. apply Hall. exact Ha.
  - apply String.eqb_neq in Ea, Eb.
    destruct Ha as [-> | Ha]; [congruence|]. destruct Hb as [-> | Hb]; [congruence|].
    rewrite (IH a b Ha Hb). lia.
Qed.

(** Among increasing classes, the class at a place is found at that place. *)
Lemma position_nth (l : list string) :
  StronglySorted str_lt l ->
  forall k, (k < List.length l)%nat ->
    position (nth k l ""%string) l = Z.of_nat k.
Proof.
  induction 1 as [|c cs Hs IH Hall]; intros k Hk; [simpl in Hk; lia|].
  rewrite position_cons. destruct k as [|k]; cbn [nth].
  - rewrite String.eqb_refl. reflexivity.
  - cbn [List.length] in Hk.
    assert (Hin : In (nth k cs ""%string) cs) by (apply nth_In; lia).
    destruct (String.eqb (nth k cs ""%string) c) eqn:E.
    + apply String.eqb_eq in E. rewrite Forall_forall in Hall.
      specialize (Hall _ Hin). rewrite E in Hall.
      exfalso. eapply str_lt_irrefl. exact Hall.
    + rewrite IH by lia. lia.
Qed.

Lemma code_of_label (y : list string) (i : nat) :
  (i < List.length y)%nat ->
  nth i (snd (fit_transform y)) 0
    = position (nth i y ""%string) (classes_ (fst (fit_transform y))).
Proof.
  intros Hi. unfold fit_transform. cbn [fst snd classes_].
  rewrite (nth_indep _ 0 (position ""%string (unique_sorted y)))
    by (rewrite length_map; exact Hi).
  apply (map_nth (fun v => position v (unique_sorted y))).
Qed.

(** X11: [fit_transform] gives one code per label, and the codes are
    0-based and contiguous: the values that occur are exactly
    [0 .. k-1] for [k] classes. *)
Theorem codes_fill_the_class_range (y : list string) :
  List.length (snd (fit_transform y)) = List.length y /\
  (forall c, In c (snd (fit_transform y)) <->
             0 <= c < Z.of_nat (List.length (classes_ (fst (fit_transform y))))).
Proof.
  unfold fit_transform. cbn [fst snd classes_].
  split; [apply length_map|]. intros c. rewrite in_map_iff. split.
  - intros (v & <- & Hv). apply unique_sorted_In in Hv.
    pose proof (position_nonneg v (unique_sorted y)).
    destruct (position_found v _ Hv). lia.
  - intros Hc. exists (nth (Z.to_nat c) (unique_sorted y) ""%string). split.
    + rewrite position_nth by (try apply unique_sorted_sorted; lia). lia.
    + apply unique_sorted_In. apply nth_In. lia.
Qed.

(** X12: decoding undoes encoding: [classes_[code]], code by code, is
    the column of labels that was encoded. *)
Theorem classes_decode_the_codes (y : list string) :
  map (fun c => nth (Z.to_nat c) (classes_ (fst (fit_transform y))) ""%string)
      (snd (fit_transform y))
  = y.
Proof.
  unfold fit_transform. cbn [fst snd classes_].
  rewrite map_map. rewrite <- (map_id y) at 2. apply map_ext_in.
  intros v Hv. apply position_found. apply unique_sorted_In. exact Hv.
Qed.

(** X13: codes compare as the labels do: a label that sorts before
    another gets the smaller code, and two rows get the same code
    exactly when they hold the same label. *)
Theorem codes_keep_the_order_of_labels (y : list string) (i j : nat) :
  (i < List.length y)%nat -> (j < List.length y)%nat ->
  (String.compare (nth i y ""%string) (nth j y ""%string) = Lt <->
   nth i (snd (fit_transform y)) 0 < nth j (snd (fit_transform y)) 0) /\
  (nth i y ""%string = nth j y ""%string <->
   nth i (snd (fit_transform y)) 0 = nth j (snd (fit_transform y)) 0).
Proof.
  intros Hi Hj. rewrite !code_of_label by assumption.
  unfold fit_transform. cbn [fst snd classes_].
  assert (Ii : In (nth i y ""%string) (unique_sorted y))
    by (apply unique_sorted_In, nth_In; exact Hi).
  assert (Ij : In (nth j y ""%string) (unique_sorted y))
    by (apply unique_sorted_In, nth_In; exact Hj).
  split.
  - apply (position_order _ (unique_sorted_sorted y)); assumption.
  - split; [intros ->; reflexivity|]. intros E.
    destruct (position_found _ _ Ii) as [_ <-].
    destruct (position_found _ _ Ij) as [_ <-].
    rewrite E. reflexivity.
Qed.

Lemma codes_keep_the_order_of_labels_witness :
  (String.compare "Iris-virginica" "Iris-setosa" = Lt <->
   nth 0 (snd (fit_transform
                 ["Iris-virginica"; "Iris-setosa"; "Iris-versicolor"; "Iris-setosa"]%string)) 0
   < nth 1 (snd (fit_transform
                   ["Iris-virginica"; "Iris-setosa"; "Iris-versicolor"; "Iris-setosa"]%string)) 0) /\
  ("Iris-virginica"%string = "Iris-setosa"%string <->
   nth 0 (snd (fit_transform
                 ["Iris-virginica"; "Iris-setosa"; "Iris-versicolor"; "Iris-setosa"]%string)) 0
   = nth 1 (snd (fit_transform
                   ["Iris-virginica"; "Iris-setosa"; "Iris-versicolor"; "Iris-setosa"]%string)) 0).
Proof.
  apply (codes_keep_the_order_of_labels
           ["Iris-virginica"; "Iris-setosa"; "Iris-versicolor"; "Iris-setosa"]%string
           0 1); simpl; lia.
Defined.

(** The three Iris classes, met in any order, are coded 0, 1, 2. *)
Lemma iris_codes :
  fit_transform ["Iris-virginica"; "Iris-setosa"; "Iris-versicolor"; "Iris-setosa"]%string
  = (Build_LabelEncoder ["Iris-setosa"; "Iris-versicolor"; "Iris-virginica"]%string,
     [2; 0; 1; 0]).
Proof. reflexivity. Qed.

End Encoding.
